(** * AyurBot chat endpoint: the retrieval-augmented pipeline of
      [src/app/api/chat/route.ts]

    A shallow embedding of the route handler [POST], of its unused helper
    [withRetry], and of the pure transformations the handler performs on the
    request (history normalisation, query fall-back chain, history rewrite,
    context-block assembly, error classification).

    Conventions of the embedding.
    - JavaScript values that reach the handler through [req.json()] are
      modelled by [JsVal].  Of a number the handler observes only whether
      it is falsy and how it prints; [JNum] records exactly that.
    - Strings are the UTF-8 encodings of the program's strings.  White
      space is the WhiteSpace and LineTerminator of ECMAScript, recognised
      on its encoding: the six ASCII characters, U+00A0, U+1680, U+2000 to
      U+200A, U+2028, U+2029, U+202F, U+205F, U+3000 and U+FEFF.
    - A thrown value is an [Error]-like object, [JsError]: an optional
      [message], an optional numeric [status], the constructor name, and
      whether the logging that opens the handler's [catch] clause can print
      it.
    - The number handed to [withRetry] as [maxRetries] is a finite one,
      hence a rational; the delay is an integer.
    - The three remote services and the session lookup are parameters of
      the handler: state transformers over an abstract [World].
    - [console.log]/[console.warn]/[console.error] calls are omitted where
      they cannot throw.
    - The chat page [src/app/dashboard/chatbot/page.tsx] is embedded in
      [Page]: [cleanBotText], the request it builds and [handleSend]. *)

From Stdlib Require Import ZArith List String Ascii Bool Lia QArith Qround.
From Stdlib Require Import DecimalString.
Import ListNotations.

Local Set Warnings "-register-all".
Local Open Scope string_scope.
Local Open Scope Z_scope.

(* ===================================================================== *)
(** ** String helpers *)
(* ===================================================================== *)

Module Str.

(** The line feed and the double quote, which have no escape in a
    literal. *)
Definition nl : string := String (ascii_of_nat 10) EmptyString.
Definition dq : string := String (ascii_of_nat 34) EmptyString.

(** [String.prototype.includes]: [sub] occurs somewhere in [s]. *)
Fixpoint includes (s sub : string) : bool :=
  if String.prefix sub s then true
  else match s with
       | EmptyString => false
       | String _ rest => includes rest sub
       end.

(** ECMAScript white space of one byte: TAB, LF, VT, FF, CR, SP. *)
Definition is_ws (c : ascii) : bool :=
  let n := nat_of_ascii c in
  (Nat.eqb n 32 || (Nat.leb 9 n && Nat.leb n 13))%bool.

(** White space of two bytes: U+00A0 (C2 A0). *)
Definition is_ws2 (c d : ascii) : bool :=
  (Nat.eqb (nat_of_ascii c) 194 && Nat.eqb (nat_of_ascii d) 160)%bool.

(** White space of three bytes: U+1680 (E1 9A 80), U+2000 to U+200A
    (E2 80 80 to E2 80 8A), U+2028, U+2029, U+202F (E2 80 A8, A9, AF),
    U+205F (E2 81 9F), U+3000 (E3 80 80), U+FEFF (EF BB BF). *)
Definition is_ws3 (c d e : ascii) : bool :=
  let x := nat_of_ascii c in
  let y := nat_of_ascii d in
  let z := nat_of_ascii e in
  ((Nat.eqb x 225 && Nat.eqb y 154 && Nat.eqb z 128)
   || (Nat.eqb x 226 && Nat.eqb y 128
       && ((Nat.leb 128 z && Nat.leb z 138)
           || Nat.eqb z 168 || Nat.eqb z 169 || Nat.eqb z 175))
   || (Nat.eqb x 226 && Nat.eqb y 129 && Nat.eqb z 159)
   || (Nat.eqb x 227 && Nat.eqb y 128 && Nat.eqb z 128)
   || (Nat.eqb x 239 && Nat.eqb y 187 && Nat.eqb z 191))%bool.

(** [s] without the white-space character it starts with, if it starts
    with one. *)
Definition drop_ws (s : string) : option string :=
  match s with
  | EmptyString => None
  | String c rest =>
      if is_ws c then Some rest
      else match rest with
           | EmptyString => None
           | String d rest2 =>
               if is_ws2 c d then Some rest2
               else match rest2 with
                    | EmptyString => None
                    | String e rest3 =>
                        if is_ws3 c d e then Some rest3 else None
                    end
           end
  end.

Fixpoint trimStart (s : string) : string :=
  match s with
  | EmptyString => EmptyString
  | String c rest =>
      if is_ws c then trimStart rest
      else match rest with
           | EmptyString => s
           | String d rest2 =>
               if is_ws2 c d then trimStart rest2
               else match rest2 with
                    | EmptyString => s
                    | String e rest3 =>
                        if is_ws3 c d e then trimStart rest3 else s
                    end
           end
  end.

(** [s] consists of white-space characters only. *)
Fixpoint all_ws (s : string) : bool :=
  match s with
  | EmptyString => true
  | String c rest =>
      if is_ws c then all_ws rest
      else match rest with
           | EmptyString => false
           | String d rest2 =>
               if is_ws2 c d then all_ws rest2
               else match rest2 with
                    | EmptyString => false
                    | String e rest3 =>
                        if is_ws3 c d e then all_ws rest3 else false
                    end
           end
  end.

(** The longest suffix made of white space goes. *)
Fixpoint trimEnd (s : string) : string :=
  if all_ws s then EmptyString
  else match s with
       | EmptyString => EmptyString
       | String c rest => String c (trimEnd rest)
       end.

Definition trim (s : string) : string := trimEnd (trimStart s).

(** [Array.prototype.join] on an array of strings. *)
Definition join (sep : string) (l : list string) : string :=
  String.concat sep l.

Definition of_Z (n : Z) : string := NilZero.string_of_int (Z.to_int n).

End Str.

(* ===================================================================== *)
(** ** JavaScript values *)
(* ===================================================================== *)

(** [JNum falsy shown] is a number: [falsy] tells whether it is 0, -0 or
    NaN, [shown] is what Number::toString gives for it. *)
Inductive JsVal : Type :=
| JUndefined
| JNull
| JBool (b : bool)
| JNum (falsy : bool) (shown : string)
| JStr (s : string)
| JArr (elems : list JsVal)
| JObj (fields : list (string * JsVal)).

Module Js.

(** ToBoolean. *)
Definition truthy (v : JsVal) : bool :=
  match v with
  | JUndefined | JNull => false
  | JBool b => b
  | JNum falsy _ => negb falsy
  | JStr s => negb (String.eqb s EmptyString)
  | JArr _ | JObj _ => true
  end.

(** [a || b]. *)
Definition or (a b : JsVal) : JsVal := if truthy a then a else b.

Definition nullish (v : JsVal) : bool :=
  match v with
  | JUndefined | JNull => true
  | _ => false
  end.

(** [a ?? b]. *)
Definition coalesce (a b : JsVal) : JsVal := if nullish a then b else a.

(** [v === "s"] for a string literal. *)
Definition eq_str (v : JsVal) (s : string) : bool :=
  match v with
  | JStr t => String.eqb t s
  | _ => false
  end.

Fixpoint lookup (k : string) (fields : list (string * JsVal)) : JsVal :=
  match fields with
  | [] => JUndefined
  | (k', v) :: rest => if String.eqb k k' then v else lookup k rest
  end.

(** The object has an own property [k]. *)
Fixpoint has_own (k : string) (fields : list (string * JsVal)) : bool :=
  match fields with
  | [] => false
  | (k', _) :: rest => (String.eqb k k' || has_own k rest)%bool
  end.

(** [Array.prototype.join] on strings that may fail to be computed: the
    first failure, from the left, is the outcome. *)
Fixpoint sequence (l : list (string + string)) : list string + string :=
  match l with
  | [] => inl []
  | inr e :: _ => inr e
  | inl x :: rest =>
      match sequence rest with
      | inl xs => inl (x :: xs)
      | inr e => inr e
      end
  end.

Definition not_primitive : string := "Cannot convert object to primitive value".

(** ToString, as used by [String(v)], template literals and
    [Array.prototype.join]; [inr msg] is a [TypeError] with that message.
    An object parsed from JSON prints as [[object Object]] through the
    inherited [toString], unless it has an own property [toString], which
    is then not callable: [valueOf] gives the object back and the
    conversion throws. *)
Fixpoint ToString_sum (v : JsVal) : string + string :=
  match v with
  | JUndefined => inl "undefined"
  | JNull => inl "null"
  | JBool true => inl "true"
  | JBool false => inl "false"
  | JNum _ shown => inl shown
  | JStr s => inl s
  | JArr elems =>
      match sequence
              (List.map (fun e => match e with
                                  | JUndefined | JNull => inl EmptyString
                                  | _ => ToString_sum e
                                  end) elems) with
      | inl parts => inl (String.concat "," parts)
      | inr e => inr e
      end
  | JObj fields =>
      if has_own "toString" fields then inr not_primitive
      else inl "[object Object]"
  end.

End Js.

(* ===================================================================== *)
(** ** Failures and outcomes *)
(* ===================================================================== *)

(** An [Error]-like thrown value: [error.message], [error.status] and
    [error.constructor.name].  [log_failure] is the message of the
    [TypeError] that the logging at the head of the handler's [catch]
    clause throws on this value, when it does: a value that
    [JSON.stringify] cannot serialise, such as a circular structure, or a
    thrown [undefined], whose [message] cannot be read. *)
Record JsError : Type := mkJsError {
  message : option string;
  status : option Z;
  ctor_name : string;
  log_failure : option string
}.

(** A failure that can be logged. *)
Definition mkError (m : option string) (s : option Z) (c : string) : JsError :=
  mkJsError m s c None.

(** A [TypeError] raised by the runtime itself. *)
Definition TypeError (msg : string) : JsError :=
  mkError (Some msg) None "TypeError".

(** [error.status === code]. *)
Definition status_is (e : JsError) (code : Z) : bool :=
  match status e with
  | Some s => s =? code
  | None => false
  end.

(** The result of evaluating an expression or awaiting a promise. *)
Inductive Outcome (A : Type) : Type :=
| Ok (a : A)
| Throw (e : JsError).
Arguments Ok {A} a.
Arguments Throw {A} e.

Definition obind {A B : Type} (o : Outcome A) (k : A -> Outcome B) : Outcome B :=
  match o with
  | Ok a => k a
  | Throw e => Throw e
  end.

Module JsText.

(** ToString as an outcome. *)
Definition ToString (v : JsVal) : Outcome string :=
  match Js.ToString_sum v with
  | inl s => Ok s
  | inr msg => Throw (TypeError msg)
  end.

(** One element of [Array.prototype.join]: [undefined] and [null] render
    as the empty string. *)
Definition join_elem (e : JsVal) : Outcome string :=
  if Js.nullish e then Ok EmptyString else ToString e.

(** The elements of a join, left to right. *)
Fixpoint join_elems (l : list JsVal) : Outcome (list string) :=
  match l with
  | [] => Ok []
  | e :: rest =>
      obind (join_elem e) (fun x =>
      obind (join_elems rest) (fun xs =>
      Ok (x :: xs)))
  end.

(** [l.join(sep)]. *)
Definition join (sep : string) (l : list JsVal) : Outcome string :=
  obind (join_elems l) (fun parts => Ok (Str.join sep parts)).

End JsText.

(* ===================================================================== *)
(** ** The retry helper *)
(* ===================================================================== *)

Module Retry.
Section WithRetry.

(** The operation [fn] runs against some world [W]; [T] is what its
    promise resolves to. *)
Context {W T : Type}.
Variable fn : W -> Outcome T * W.

(** How a run of [withRetry] ends: through [return await fn()], through
    [throw error] in the [catch] clause, or through the [throw] after the
    loop. *)
Inductive Exit : Type :=
| Returned (v : T)
| Rethrown (e : JsError)
| Exhausted.

(** What a run leaves behind: the world after the last invocation and the
    delays handed to [setTimeout], oldest first. *)
Record Run : Type := mkRun {
  exit : Exit;
  world : W;
  sleeps : list Z
}.

(** The values [attempt] takes: the integers from 1 on that pass the test
    [attempt <= maxRetries]. *)
Definition attempts (maxRetries : Q) : list Z :=
  List.map Z.of_nat (List.seq 1 (Z.to_nat (Qfloor maxRetries))).

(** [attempt < maxRetries]. *)
Definition attempts_remain (attempt : Z) (maxRetries : Q) : bool :=
  negb (Qle_bool maxRetries (inject_Z attempt)).

(** The [for] loop, by recursion on the attempts still to come. *)
Fixpoint loop (todo : list Z) (maxRetries : Q) (delayMs : Z) (w : W) : Run :=
  match todo with
  | [] => mkRun Exhausted w []
  | attempt :: rest =>
      match fn w with
      | (Ok v, w') => mkRun (Returned v) w' []
      | (Throw error, w') =>
          if (status_is error 503 && attempts_remain attempt maxRetries)%bool then
            let r := loop rest maxRetries (delayMs * 2) w' in
            mkRun (exit r) (world r) (delayMs :: sleeps r)
          else mkRun (Rethrown error) w' []
      end
  end.

Definition run (maxRetries : Q) (delayMs : Z) (w : W) : Run :=
  loop (attempts maxRetries) maxRetries delayMs w.

(** The message of the failure raised after the loop. *)
Definition exhausted_error : JsError :=
  mkError (Some "Max retries reached without success") None "Error".

Definition outcome_of (x : Exit) : Outcome T :=
  match x with
  | Returned v => Ok v
  | Rethrown e => Throw e
  | Exhausted => Throw exhausted_error
  end.

(** [withRetry(fn, maxRetries, delayMs)] as the caller observes it. *)
Definition withRetry (maxRetries : Q) (delayMs : Z) (w : W) : Outcome T * W :=
  let r := run maxRetries delayMs w in (outcome_of (exit r), world r).

(** The world after [n] invocations of [fn] in a row. *)
Definition after (n : nat) (w : W) : W :=
  Nat.iter n (fun w' => snd (fn w')) w.

(** The defaults of the signature. *)
Definition default_maxRetries : Q := 3.
Definition default_delayMs : Z := 1000.

End WithRetry.

(** A spy around an operation: the world carries the number of invocations
    made so far. *)
Definition counted {W T : Type} (fn : W -> Outcome T * W)
  : W * nat -> Outcome T * (W * nat) :=
  fun '(w, n) => let '(o, w') := fn w in (o, (w', S n)).

End Retry.

(* ===================================================================== *)
(** ** Data exchanged with the services *)
(* ===================================================================== *)

(** [{ text: ... }], one fragment of a turn. *)
Record Part : Type := mkPart { text : JsVal }.

(** [interface ChatHistory { role: string; parts: any }]; the handler only
    ever builds [parts] as an array of [{ text }] objects. *)
Record ChatHistory : Type := mkChat {
  role : JsVal;
  parts : list Part
}.

(** The argument of [ai.models.generateContent]. *)
Record GenRequest : Type := mkGenRequest {
  model : string;
  contents : list ChatHistory;
  config_systemInstruction : string;
  config_temperature : option Q
}.

(** What the handler reads of the reply: [response.text], a string or
    [undefined]. *)
Record GenResponse : Type := mkGenResponse { response_text : option string }.

(** [RecordMetadataValue] of the vector index client: a string, a
    boolean, a number (by what it prints as) or a list of strings. *)
Inductive MetadataValue : Type :=
| MStr (s : string)
| MBool (b : bool)
| MNum (shown : string)
| MList (items : list string).

(** One match of the vector index: its [metadata] record (possibly absent)
    and its similarity [score]. *)
Record ScoredRecord : Type := mkMatch {
  metadata : option (list (string * MetadataValue));
  score : Q
}.

(** The reply of [pineconeIndex.query]: [matches] may be [undefined]. *)
Record QueryResponse : Type := mkQueryResponse {
  matches : option (list ScoredRecord)
}.

(** The JSON bodies the handler sends. *)
Inductive Body : Type :=
| AnswerBody (answer : JsVal)
| ErrorBody (error details : string) (errorType : option string).

Record HttpResponse : Type := mkResponse {
  http_status : Z;
  body : Body
}.

(** [NextResponse.json(body)] and [NextResponse.json(body, { status })]. *)
Definition json_ok (b : Body) : HttpResponse := mkResponse 200 b.
Definition json_status (b : Body) (code : Z) : HttpResponse := mkResponse code b.

(** [response.text] as a JavaScript value. *)
Definition text_val (t : option string) : JsVal :=
  match t with
  | Some s => JStr s
  | None => JUndefined
  end.

(* ===================================================================== *)
(** ** Pure steps of the handler *)
(* ===================================================================== *)

Module Chat.

(** Reading a data property: [v.k].  The keys read by the handler
    ([question], [history], [role], [parts], [text]) are not defined on any
    built-in prototype, so only a JSON object can hold them. *)
Definition get (v : JsVal) (k : string) : Outcome JsVal :=
  match v with
  | JUndefined =>
      Throw (TypeError ("Cannot read properties of undefined (reading '" ++ k ++ "')"))
  | JNull =>
      Throw (TypeError ("Cannot read properties of null (reading '" ++ k ++ "')"))
  | JObj fields => Ok (Js.lookup k fields)
  | _ => Ok JUndefined
  end.

(** [v[0]]. *)
Definition index0 (v : JsVal) : Outcome JsVal :=
  match v with
  | JUndefined =>
      Throw (TypeError "Cannot read properties of undefined (reading '0')")
  | JNull =>
      Throw (TypeError "Cannot read properties of null (reading '0')")
  | JArr elems => Ok (List.nth 0 elems JUndefined)
  | JStr (String c _) => Ok (JStr (String c EmptyString))
  | _ => Ok JUndefined
  end.

(** The predicate handed to [filter]:
    [msg && msg.role && Array.isArray(msg.parts) && msg.parts.length > 0
     && msg.parts[0].text], read as a boolean. *)
Definition keep_entry (msg : JsVal) : Outcome bool :=
  if negb (Js.truthy msg) then Ok false else
  obind (get msg "role") (fun r =>
  if negb (Js.truthy r) then Ok false else
  obind (get msg "parts") (fun ps =>
  match ps with
  | JArr elems =>
      if (0 <? Z.of_nat (List.length elems)) then
        obind (get (List.nth 0 elems JUndefined) "text") (fun t =>
        Ok (Js.truthy t))
      else Ok false
  | _ => Ok false
  end)).

(** The function handed to [map]:
    [{ role: msg.role, parts: [{ text: msg.parts[0].text }] }]. *)
Definition to_entry (msg : JsVal) : Outcome ChatHistory :=
  obind (get msg "role") (fun r =>
  obind (get msg "parts") (fun ps =>
  obind (index0 ps) (fun p0 =>
  obind (get p0 "text") (fun t =>
  Ok (mkChat r [mkPart t]))))).

(** [Array.prototype.filter] with a callback that may throw. *)
Fixpoint filterM {A : Type} (p : A -> Outcome bool) (l : list A)
  : Outcome (list A) :=
  match l with
  | [] => Ok []
  | x :: rest =>
      obind (p x) (fun b =>
      obind (filterM p rest) (fun rest' =>
      Ok (if b then x :: rest' else rest')))
  end.

(** [Array.prototype.map] with a callback that may throw. *)
Fixpoint mapM {A B : Type} (f : A -> Outcome B) (l : list A)
  : Outcome (list B) :=
  match l with
  | [] => Ok []
  | x :: rest =>
      obind (f x) (fun y =>
      obind (mapM f rest) (fun rest' =>
      Ok (y :: rest')))
  end.

(** [(history || []).filter(...).map(...)]. *)
Definition formattedHistory (history : JsVal) : Outcome (list ChatHistory) :=
  match Js.or history (JArr []) with
  | JArr raw => obind (filterM keep_entry raw) (mapM to_entry)
  | _ => Throw (TypeError "(history || []).filter is not a function")
  end.

(** [msg.parts[0].text] on a formatted entry. *)
Definition first_text (msg : ChatHistory) : Outcome JsVal :=
  match parts msg with
  | p :: _ => Ok (text p)
  | [] => Throw (TypeError "Cannot read properties of undefined (reading 'text')")
  end.

(** [formattedHistory.filter(msg => msg.role === "user")
                     .map(msg => msg.parts[0].text)]. *)
Definition userHistory (formatted : list ChatHistory) : Outcome (list JsVal) :=
  mapM first_text (List.filter (fun msg => Js.eq_str (role msg) "user") formatted).

(** The prompt of the rewrite call, a template literal: the join of the
    user texts is converted first, then the question; either conversion
    may throw. *)
Definition rewrite_prompt (users : list JsVal) (followUpQuestion : JsVal)
  : Outcome string :=
  obind (JsText.join Str.nl users) (fun joined =>
  obind (JsText.ToString followUpQuestion) (fun asked =>
  Ok ("Previous user messages:" ++ Str.nl ++ joined ++ Str.nl
      ++ "Follow-up question: " ++ asked))).

Definition rewrite_instruction : string :=
  "You are a helpful Ayurveda query rewriter. " ++ Str.nl
  ++ "Rephrase the follow-up into a standalone question. Output only the rewritten question, no explanations. "
  ++ Str.nl
  ++ "If it's a greeting (hi, hello, how can you help me), keep its meaning the same.".

Definition rewrite_request (users : list JsVal) (followUpQuestion : JsVal)
  : Outcome GenRequest :=
  obind (rewrite_prompt users followUpQuestion) (fun prompt =>
  Ok (mkGenRequest "gemini-2.5-flash"
        [mkChat (JStr "user") [mkPart (JStr prompt)]]
        rewrite_instruction None)).

(** [rewriteResponse.text || followUpQuestion || "No question generated."]. *)
Definition enhancedQuestion (rewriteResponse : GenResponse)
    (followUpQuestion : JsVal) : JsVal :=
  Js.or (Js.or (text_val (response_text rewriteResponse)) followUpQuestion)
        (JStr "No question generated.").

(** The turn pushed after the rewrite. *)
Definition user_turn (t : JsVal) : ChatHistory := mkChat (JStr "user") [mkPart t].

(** [formattedHistory.length > 0 &&
     formattedHistory[formattedHistory.length - 1].role === "user"]. *)
Definition ends_with_user (formatted : list ChatHistory) : bool :=
  ((0 <? Z.of_nat (List.length formatted)) &&
   match List.nth_error formatted (List.length formatted - 1) with
   | Some msg => Js.eq_str (role msg) "user"
   | None => false
   end)%bool.

(** The conditional [pop()] followed by [push(...)]. *)
Definition replace_last (formatted : list ChatHistory) (enhanced : JsVal)
  : list ChatHistory :=
  (if ends_with_user formatted then List.removelast formatted else formatted)
  ++ [user_turn enhanced].

Definition separator : string :=
  Str.nl ++ Str.nl ++ "---" ++ Str.nl ++ Str.nl.

(** [metadata[k]], [None] standing for [undefined]. *)
Fixpoint metadata_get (k : string) (md : list (string * MetadataValue))
  : option MetadataValue :=
  match md with
  | [] => None
  | (k', v) :: rest => if String.eqb k k' then Some v else metadata_get k rest
  end.

(** [String(v)] on a metadata value. *)
Definition metadata_string (v : MetadataValue) : string :=
  match v with
  | MStr s => s
  | MBool true => "true"
  | MBool false => "false"
  | MNum shown => shown
  | MList items => Str.join "," items
  end.

(** [String(m.metadata?.text ?? "")]. *)
Definition match_text (m : ScoredRecord) : string :=
  match metadata m with
  | Some md =>
      match metadata_get "text" md with
      | Some v => metadata_string v
      | None => EmptyString
      end
  | None => EmptyString
  end.

(** [t.trim().length > 0]. *)
Definition nonblank (t : string) : bool :=
  0 <? Z.of_nat (String.length (Str.trim t)).

(** [(searchResults.matches || []).map(...).filter(...).join(...)]. *)
Definition context (searchResults : QueryResponse) : string :=
  Str.join separator
    (List.filter nonblank
       (List.map match_text
          (match matches searchResults with
           | Some ms => ms
           | None => []
           end))).

Definition no_context : string := "No relevant context found.".

(** [context || "No relevant context found."]. *)
Definition context_or_placeholder (ctx : string) : string :=
  if String.eqb ctx EmptyString then no_context else ctx.

Definition persona : string :=
  "You are AyurBot — a compassionate Ayurveda and yoga expert." ++ Str.nl
  ++ "You specialize in holistic healing, diet, lifestyle, herbs, meditation, and wellness."
  ++ Str.nl
  ++ "Use ONLY the provided context to answer. " ++ Str.nl
  ++ "If context lacks the answer, reply: " ++ Str.dq
  ++ "I could not find the answer in the provided document. Would you like general Ayurvedic guidance instead?"
  ++ Str.dq ++ Str.nl
  ++ "Keep your tone warm, natural, and caring. " ++ Str.nl
  ++ "Explain simply and safely without prescribing medicines." ++ Str.nl
  ++ "Context: ".

Definition systemInstruction (ctx : string) : string :=
  persona ++ context_or_placeholder ctx.

Definition answer_request (formatted : list ChatHistory) (ctx : string)
  : GenRequest :=
  mkGenRequest "gemini-2.5-flash" formatted (systemInstruction ctx) (Some (7 # 10)%Q).

Definition fallback_answer : string :=
  "I'm here to guide you on Ayurveda, yoga, and holistic well-being.".

(** [response.text || "I'm here to guide you ..."]. *)
Definition answer (response : GenResponse) : JsVal :=
  Js.or (text_val (response_text response)) (JStr fallback_answer).

(** [error.message?.includes(needle)], read as a boolean. *)
Definition message_includes (e : JsError) (needle : string) : bool :=
  match message e with
  | Some m => Str.includes m needle
  | None => false
  end.

(** [error.message || "Unknown error"]. *)
Definition message_or_unknown (e : JsError) : string :=
  match message e with
  | Some m => if String.eqb m EmptyString then "Unknown error" else m
  | None => "Unknown error"
  end.

(** The [catch] clause of the handler. *)
Definition classify (e : JsError) : HttpResponse :=
  if (message_includes e "API key" || status_is e 403)%bool then
    json_status
      (ErrorBody "Configuration issue with AI service" "API key problem" None)
      500
  else if (message_includes e "quota" || status_is e 429)%bool then
    json_status
      (ErrorBody "Service temporarily unavailable due to quota limits"
                 "Try again later" None)
      503
  else
    json_status
      (ErrorBody "Chat service temporarily unavailable"
                 (message_or_unknown e) (Some (ctor_name e)))
      500.

End Chat.

(* ===================================================================== *)
(** ** The route handler *)
(* ===================================================================== *)

(** How an invocation of the handler ends: with a response, or with a
    failure that escapes it. *)
Inductive HandlerResult : Type :=
| Responded (r : HttpResponse)
| Rejected (e : JsError).

(** The collaborators of the handler.  [World] is whatever the services
    depend on and change; [Embedding] is the vector type of the embedding
    service; [Session] what the session lookup yields. *)
Record Services (World Embedding Session : Type) : Type := mkServices {
  getServerSession : World -> Outcome Session * World;
  generateContent : GenRequest -> World -> Outcome GenResponse * World;
  embedQuery : JsVal -> World -> Outcome Embedding * World;
  pineconeQuery : Z -> Embedding -> bool -> World -> Outcome QueryResponse * World
}.
Arguments getServerSession {World Embedding Session} _ _.
Arguments generateContent {World Embedding Session} _ _ _.
Arguments embedQuery {World Embedding Session} _ _ _.
Arguments pineconeQuery {World Embedding Session} _ _ _ _ _.

Module Handler.
Section Handler.

Context {World Embedding Session : Type}.
Variable svc : Services World Embedding Session.

(** Awaited computations: they read and change the world and may throw. *)
Definition M (A : Type) : Type := World -> Outcome A * World.

Definition ret {A : Type} (a : A) : M A := fun w => (Ok a, w).

Definition bind {A B : Type} (c : M A) (k : A -> M B) : M B :=
  fun w =>
    match c w with
    | (Ok a, w') => k a w'
    | (Throw e, w') => (Throw e, w')
    end.

(** A synchronous expression inside the [async] function. *)
Definition lift {A : Type} (o : Outcome A) : M A := fun w => (o, w).

Notation "x <- c ;; k" := (bind c (fun x => k))
  (at level 61, c at next level, right associativity).

(** [const { question, history } = body]. *)
Definition destructure (b : JsVal) : Outcome (JsVal * JsVal) :=
  match b with
  | JNull =>
      Throw (TypeError
               "Cannot destructure property 'question' of '(intermediate value)' as it is null.")
  | JUndefined =>
      Throw (TypeError
               "Cannot destructure property 'question' of '(intermediate value)' as it is undefined.")
  | _ =>
      obind (Chat.get b "question") (fun q =>
      obind (Chat.get b "history") (fun h =>
      Ok (q, h)))
  end.

(** The [catch] clause: it first logs the failure, [error.message],
    [error.status] and [JSON.stringify(error, null, 2)] included; when
    that throws, the handler rejects; otherwise the failure is
    classified. *)
Definition caught (e : JsError) : HandlerResult :=
  match log_failure e with
  | Some msg => Rejected (TypeError msg)
  | None => Responded (Chat.classify e)
  end.

(** The body of the [try] block; [req_json] is what [await req.json()]
    yields. *)
Definition try_block (req_json : Outcome JsVal) : M HttpResponse :=
  b <- lift req_json ;;
  qh <- lift (destructure b) ;;
  let question := fst qh in
  let history := snd qh in
  formatted <- lift (Chat.formattedHistory history) ;;
  users <- lift (Chat.userHistory formatted) ;;
  let followUpQuestion := question in
  rewriteRequest <- lift (Chat.rewrite_request users followUpQuestion) ;;
  rewriteResponse <- generateContent svc rewriteRequest ;;
  let enhanced := Chat.enhancedQuestion rewriteResponse followUpQuestion in
  let formatted' := Chat.replace_last formatted enhanced in
  queryVector <- embedQuery svc enhanced ;;
  searchResults <- pineconeQuery svc 10 queryVector true ;;
  let ctx := Chat.context searchResults in
  response <- generateContent svc (Chat.answer_request formatted' ctx) ;;
  ret (json_ok (AnswerBody (Chat.answer response))).

(** [export async function POST(req)]: the session lookup stands before
    the [try], so its failure escapes; every other failure goes to the
    [catch] clause. *)
Definition POST (req_json : Outcome JsVal) (w : World) : HandlerResult * World :=
  match getServerSession svc w with
  | (Throw e, w1) => (Rejected e, w1)
  | (Ok _, w1) =>
      match try_block req_json w1 with
      | (Ok r, w2) => (Responded r, w2)
      | (Throw e, w2) => (caught e, w2)
      end
  end.

End Handler.

(** The services as sections 4.2 and 4.4 word them, with both generation
    calls "executed through the Retry Wrapper": [generateContent] runs under
    [withRetry] with the defaults of its signature.  The handler itself is
    never given this record by the source; it serves for comparison only. *)
Definition retrying {World Embedding Session : Type}
    (svc : Services World Embedding Session) : Services World Embedding Session :=
  mkServices World Embedding Session
    (getServerSession svc)
    (fun rq => Retry.withRetry (generateContent svc rq)
                 Retry.default_maxRetries Retry.default_delayMs)
    (embedQuery svc)
    (pineconeQuery svc).

End Handler.

(* ===================================================================== *)
(** ** The categories of section 4.6 *)
(* ===================================================================== *)

(** The table of the Error Classifier, read row by row: the first row whose
    condition holds gives the category. *)
Inductive Category : Type :=
| Configuration
| Capacity
| Generic.

Definition is_configuration (e : JsError) : bool :=
  (Chat.message_includes e "API key" || status_is e 403)%bool.

Definition is_capacity (e : JsError) : bool :=
  (Chat.message_includes e "quota" || status_is e 429)%bool.

Definition category (e : JsError) : Category :=
  if is_configuration e then Configuration
  else if is_capacity e then Capacity
  else Generic.

(** The response each category stands for in the handler. *)
Definition category_response (c : Category) (e : JsError) : HttpResponse :=
  match c with
  | Configuration =>
      mkResponse 500
        (ErrorBody "Configuration issue with AI service" "API key problem" None)
  | Capacity =>
      mkResponse 503
        (ErrorBody "Service temporarily unavailable due to quota limits"
                   "Try again later" None)
  | Generic =>
      mkResponse 500
        (ErrorBody "Chat service temporarily unavailable"
                   (Chat.message_or_unknown e) (Some (ctor_name e)))
  end.

Definition category_status (c : Category) : Z :=
  match c with
  | Configuration => 500
  | Capacity => 503
  | Generic => 500
  end.

(* ===================================================================== *)
(** ** The words of sections 4.1 and 4.2 *)
(* ===================================================================== *)

Module Words.

(** The field [k] of an entry, [undefined] when the entry is not an object
    or lacks the field. *)
Definition field (v : JsVal) (k : string) : JsVal :=
  match v with
  | JObj fields => Js.lookup k fields
  | _ => JUndefined
  end.

(** The first element of the entry's [parts] array, if [parts] is a
    non-empty array. *)
Definition first_part (msg : JsVal) : option JsVal :=
  match field msg "parts" with
  | JArr (p :: _) => Some p
  | _ => None
  end.

(** "It has a role and a non-empty first text part." *)
Definition well_formed (msg : JsVal) : bool :=
  (Js.truthy (field msg "role") &&
   match first_part msg with
   | Some p => Js.truthy (field p "text")
   | None => false
   end)%bool.

(** The entry has a role and its first part is [null] or [undefined]. *)
Definition null_first_part (msg : JsVal) : bool :=
  (Js.truthy (field msg "role") &&
   match first_part msg with
   | Some p => Js.nullish p
   | None => false
   end)%bool.

(** The canonical shape of a kept entry: its role and its first text
    fragment only. *)
Definition canonical (msg : JsVal) : ChatHistory :=
  mkChat (field msg "role")
    [mkPart (match first_part msg with
             | Some p => field p "text"
             | None => JUndefined
             end)].

(** "The generative service returns usable text." *)
Definition usable (r : GenResponse) : bool :=
  Js.truthy (text_val (response_text r)).

(** The role of a turn is the string "user". *)
Definition is_user (msg : ChatHistory) : bool := Js.eq_str (role msg) "user".

End Words.

(* ===================================================================== *)
(** ** Test doubles *)
(* ===================================================================== *)

Module Scenario.

(** A failure as the generative service reports overload. *)
Definition overloaded : JsError :=
  mkError (Some "The model is overloaded. Please try again later.")
          (Some 503) "ApiError".

(** A failure that is not an overload. *)
Definition bad_request : JsError :=
  mkError (Some "Invalid argument") (Some 400) "ApiError".

(** A failure of the service for a refused key, and one for a spent
    quota. *)
Definition forbidden : JsError :=
  mkError (Some "Permission denied") (Some 403) "ApiError".

Definition rate_limited : JsError :=
  mkError (Some "Resource has been exhausted") (Some 429) "ApiError".

(** An operation over a call counter: overloaded on its first two
    invocations, then resolving to 42. *)
Definition twice_overloaded (n : nat) : Outcome Z * nat :=
  if Nat.ltb n 2 then (Throw overloaded, S n) else (Ok 42, S n).

(** An operation that always fails with [bad_request]. *)
Definition always_bad (n : nat) : Outcome Z * nat :=
  (Throw bad_request, S n).

(** An operation that is always overloaded. *)
Definition always_overloaded (n : nat) : Outcome Z * nat :=
  (Throw overloaded, S n).

(** Services whose world counts the calls to [generateContent]: the first
    call is refused as overloaded, every later one answers [reply]; the
    index returns [found]. *)
Definition flaky (reply : option string) (found : option (list ScoredRecord))
  : Services nat unit unit :=
  mkServices nat unit unit
    (fun n => (Ok tt, n))
    (fun _ n => if Nat.eqb n 0 then (Throw overloaded, S n)
                else (Ok (mkGenResponse reply), S n))
    (fun _ n => (Ok tt, n))
    (fun _ _ _ n => (Ok (mkQueryResponse found), n)).

(** Services that never fail; the world records the requests made to
    [generateContent], latest first. *)
Definition steady (reply : option string) (found : option (list ScoredRecord))
  : Services (list GenRequest) unit unit :=
  mkServices (list GenRequest) unit unit
    (fun w => (Ok tt, w))
    (fun rq w => (Ok (mkGenResponse reply), rq :: w))
    (fun _ w => (Ok tt, w))
    (fun _ _ _ w => (Ok (mkQueryResponse found), w)).

Definition turn (r t : string) : JsVal :=
  JObj [("role", JStr r); ("parts", JArr [JObj [("text", JStr t)]])].

Definition request (q : string) (history : JsVal) : Outcome JsVal :=
  Ok (JObj [("question", JStr q); ("history", history)]).

Definition snippet (t : string) : ScoredRecord :=
  mkMatch (Some [("text", MStr t)]) (1 # 2)%Q.

(** The four matches of the context-block example of section 8. *)
Definition four_matches : list ScoredRecord :=
  [snippet EmptyString; snippet "  "; snippet "A"; snippet "B"].

(** Two formatted histories, one ending with a user turn and one with a
    model turn. *)
Definition ends_user : list ChatHistory :=
  [mkChat (JStr "user") [mkPart (JStr "What is vata?")];
   mkChat (JStr "model") [mkPart (JStr "Vata is one of the doshas.")];
   mkChat (JStr "user") [mkPart (JStr "and pitta?")]].

Definition ends_model : list ChatHistory :=
  [mkChat (JStr "user") [mkPart (JStr "What is vata?")];
   mkChat (JStr "model") [mkPart (JStr "Vata is one of the doshas.")]].

(** An entry whose first part is [null]. *)
Definition null_part_entry : JsVal :=
  JObj [("role", JStr "user"); ("parts", JArr [JNull])].

End Scenario.

(* ===================================================================== *)
(** ** The chat page: [src/app/dashboard/chatbot/page.tsx] *)
(* ===================================================================== *)

(** The pure parts of the page component and its [handleSend] callback.
    The three regular expressions of [cleanBotText] are modelled by the
    scanners below: [\s] is the white space of [Str.drop_ws], the line
    terminators that [^] (flag [m]) looks back at are LF, CR, U+2028 and
    U+2029. *)
Module Page.

Inductive Sender : Type :=
| bot
| user.

(** [interface Message]. *)
Record Message : Type := mkMessage {
  id : Z;
  sender : Sender;
  text : string;
  time : option string;
  usedRAG : option JsVal;
  sourcesCount : option JsVal
}.

(** [replace(/#+\s?/g, "")]: every run of [#] goes, together with one
    white-space character right after it.  [after_hash] holds while the
    scanner is inside a match. *)
Fixpoint strip_headings (after_hash : bool) (s : string) : string :=
  match s with
  | EmptyString => EmptyString
  | String c rest =>
      if Ascii.eqb c "#" then strip_headings true rest
      else if after_hash then
        if Str.is_ws c then strip_headings false rest
        else match rest with
             | EmptyString => String c (strip_headings false rest)
             | String d rest2 =>
                 if Str.is_ws2 c d then strip_headings false rest2
                 else match rest2 with
                      | EmptyString => String c (strip_headings false rest)
                      | String e rest3 =>
                          if Str.is_ws3 c d e then strip_headings false rest3
                          else String c (strip_headings false rest)
                      end
             end
      else String c (strip_headings false rest)
  end.

(** [replace(/\*\*/g, "")]: pairs of asterisks go, left to right. *)
Fixpoint strip_bold (s : string) : string :=
  match s with
  | EmptyString => EmptyString
  | String c rest =>
      match rest with
      | String c' rest' =>
          if (Ascii.eqb c "*" && Ascii.eqb c' "*")%bool then strip_bold rest'
          else String c (strip_bold rest)
      | EmptyString => String c EmptyString
      end
  end.

Definition is_bullet (c : ascii) : bool :=
  (Ascii.eqb c "-" || Ascii.eqb c "*")%bool.

(** The line terminators of one byte, LF and CR, and of three bytes,
    U+2028 and U+2029 (E2 80 A8, E2 80 A9). *)
Definition is_line_terminator (c : ascii) : bool :=
  let n := nat_of_ascii c in (Nat.eqb n 10 || Nat.eqb n 13)%bool.

Definition is_line_terminator3 (c d e : ascii) : bool :=
  (Nat.eqb (nat_of_ascii c) 226 && Nat.eqb (nat_of_ascii d) 128
   && (Nat.eqb (nat_of_ascii e) 168 || Nat.eqb (nat_of_ascii e) 169))%bool.

(** Whether the last character of the leading white-space run of [s] is a
    line terminator; [dflt] when the run is empty. *)
Fixpoint ws_run_ends_line (dflt : bool) (s : string) : bool :=
  match s with
  | EmptyString => dflt
  | String c rest =>
      if Str.is_ws c then ws_run_ends_line (is_line_terminator c) rest
      else match rest with
           | EmptyString => dflt
           | String d rest2 =>
               if Str.is_ws2 c d then ws_run_ends_line false rest2
               else match rest2 with
                    | EmptyString => dflt
                    | String e rest3 =>
                        if Str.is_ws3 c d e
                        then ws_run_ends_line (is_line_terminator3 c d e) rest3
                        else dflt
                    end
           end
  end.

(** One match of [\s*[-*]\s*] at the head of [s]: what follows the match,
    and whether the match ends with a line terminator (so that [^] holds
    again right after it). *)
Definition match_bullet (s : string) : option (string * bool) :=
  match Str.trimStart s with
  | String c rest =>
      if is_bullet c
      then Some (Str.trimStart rest, ws_run_ends_line false rest)
      else None
  | EmptyString => None
  end.

(** [replace(/^\s*[-*]\s*/gm, "")]: at every position where a line starts
    the match is tried; where it fails, or away from a line start, the
    character is kept, and a line starts again after a line terminator.
    [fuel] bounds the number of steps. *)
Fixpoint strip_bullets_from (fuel : nat) (line_start : bool) (s : string)
  : string :=
  match fuel with
  | O => s
  | S fuel' =>
      match s with
      | EmptyString => EmptyString
      | String c rest =>
          match (if line_start then match_bullet s else None) with
          | Some (after, starts) => strip_bullets_from fuel' starts after
          | None =>
              match rest with
              | String d (String e rest3) =>
                  if is_line_terminator3 c d e
                  then String c (String d (String e
                         (strip_bullets_from fuel' true rest3)))
                  else String c (strip_bullets_from fuel'
                                   (is_line_terminator c) rest)
              | _ =>
                  String c (strip_bullets_from fuel'
                              (is_line_terminator c) rest)
              end
          end
      end
  end.

Definition strip_bullets (s : string) : string :=
  strip_bullets_from (String.length s) true s.

(** [cleanBotText]. *)
Definition cleanBotText (t : string) : string :=
  Str.trim (strip_bullets (strip_bold (strip_headings false t))).

(** [text.replace(...)] on a value that need not be a string. *)
Definition cleanBotText_value (v : JsVal) : Outcome string :=
  match v with
  | JStr s => Ok (cleanBotText s)
  | _ => Throw (TypeError "text.replace is not a function")
  end.

(** [messages.map(msg => ({ role: msg.sender === "bot" ? "model" : "user",
                            parts: [{ text: msg.text }] }))]. *)
Definition history_entry (msg : Message) : JsVal :=
  JObj [("role", JStr (match sender msg with bot => "model" | user => "user" end));
        ("parts", JArr [JObj [("text", JStr (text msg))]])].

Definition formattedHistory (messages : list Message) : JsVal :=
  JArr (List.map history_entry messages).

(** The body of the request, as the handler reads it back from
    [JSON.stringify({ question: input, history: formattedHistory })]. *)
Definition request_body (input : string) (messages : list Message) : JsVal :=
  JObj [("question", JStr input); ("history", formattedHistory messages)].

(** What the page reads of the response of [fetch]: [res.status] and the
    outcome of [res.json()]. *)
Record FetchResponse : Type := mkFetchResponse {
  res_status : Z;
  res_json : Outcome JsVal
}.

(** [res.ok]. *)
Definition res_ok (res : FetchResponse) : bool :=
  ((200 <=? res_status res) && (res_status res <=? 299))%bool.

(** [new Error(message)]. *)
Definition new_Error (msg : string) : JsError := mkError (Some msg) None "Error".

Definition not_sure : string :=
  "I’m not sure, but I can offer general Ayurvedic insight.".

Definition trouble_connecting : string :=
  "⚠️ Sorry, I'm having trouble connecting right now. Please try again later.".

Definition key_issue : string :=
  "🔑 Configuration issue detected. Please check your AI API key.".

Definition quota_issue : string :=
  "📊 Service temporarily unavailable due to quota limits.".

(** The [try] block of [handleSend] from the response on: the bot message
    it builds, [now] being [Date.now()]. *)
Definition botMsg (now : Z) (fetched : Outcome FetchResponse) : Outcome Message :=
  obind fetched (fun res =>
  if negb (res_ok res)
  then Throw (new_Error ("API error: " ++ Str.of_Z (res_status res)))
  else
  obind (res_json res) (fun data =>
  obind (Chat.get data "error") (fun err =>
  if Js.truthy err
  then obind (JsText.ToString err) (fun shown => Throw (new_Error shown))
  else
  obind (Chat.get data "answer") (fun ans =>
  obind (cleanBotText_value (Js.or ans (JStr not_sure))) (fun t =>
  obind (Chat.get data "usedRAG") (fun rag =>
  obind (Chat.get data "sourcesCount") (fun cnt =>
  Ok (mkMessage (now + 1) bot t None
        (Some (Js.or rag (JBool false)))
        (Some (Js.or cnt (JNum true "0"))))))))))).

(** The [catch] clause: the text shown for a failure.  Reading
    [error.message.includes] throws when the failure has no message. *)
Definition errorMessage (error : JsError) : Outcome string :=
  match message error with
  | None =>
      Throw (TypeError "Cannot read properties of undefined (reading 'includes')")
  | Some m =>
      Ok (if Str.includes m "API key" then key_issue
          else if Str.includes m "quota" then quota_issue
          else trouble_connecting)
  end.

(** The state of the component that [handleSend] reads and sets. *)
Record PageState : Type := mkPageState {
  messages : list Message;
  input : string;
  loading : bool
}.

(** [handleSend], run to completion with no other update in between.
    [fetch] answers the request body; [sent_at] and [clock] are
    [Date.now()] and [toLocaleTimeString] when the user message is built,
    [replied_at] is [Date.now()] when the reply is built.  The second
    component tells whether the promise of [handleSend] resolves. *)
Definition handleSend (fetch : JsVal -> Outcome FetchResponse)
    (sent_at replied_at : Z) (clock : string) (st : PageState)
  : PageState * Outcome unit :=
  if String.eqb (Str.trim (input st)) EmptyString then (st, Ok tt)
  else
    let newUserMsg :=
      mkMessage sent_at user (input st) (Some clock) None None in
    let shown := (messages st ++ [newUserMsg])%list in
    match botMsg replied_at (fetch (request_body (input st) (messages st))) with
    | Ok reply =>
        (mkPageState (shown ++ [reply])%list EmptyString false, Ok tt)
    | Throw error =>
        match errorMessage error with
        | Ok shown_text =>
            (mkPageState
               (shown ++ [mkMessage (replied_at + 2) bot shown_text None None None])%list
               EmptyString false,
             Ok tt)
        | Throw escaped => (mkPageState shown EmptyString false, Throw escaped)
        end
    end.

(** What [NextResponse.json(body, { status })] of the route handler puts
    on the wire, as [fetch] hands it to the page. *)
Definition body_json (b : Body) : JsVal :=
  match b with
  | AnswerBody a => JObj [("answer", a)]
  | ErrorBody e d t =>
      JObj ([("error", JStr e); ("details", JStr d)]
            ++ match t with
               | Some n => [("errorType", JStr n)]
               | None => []
               end)%list
  end.

Definition on_the_wire (r : HttpResponse) : FetchResponse :=
  mkFetchResponse (http_status r) (Ok (body_json (body r))).

End Page.

(* ===================================================================== *)
(** ** Further vocabulary and test doubles *)
(* ===================================================================== *)

Module More.

(** A turn as the generative service expects it: a role, one part, a
    non-empty text. *)
Definition turn_ok (msg : ChatHistory) : Prop :=
  Js.truthy (role msg) = true /\
  exists t, parts msg = [mkPart t] /\ Js.truthy t = true.

(** [sub] occurs in [s]. *)
Definition substring (sub s : string) : Prop :=
  exists pre post, s = pre ++ sub ++ post.

(** The character [c] occurs in [s]. *)
Fixpoint occurs (c : ascii) (s : string) : bool :=
  match s with
  | EmptyString => false
  | String c' rest => (Ascii.eqb c c' || occurs c rest)%bool
  end.

(** The first [n] invocations of [fn] from [w] all fail with status
    503. *)
Definition overloaded_upto {W T : Type} (fn : W -> Outcome T * W)
    (n : nat) (w : W) : Prop :=
  forall i, (i < n)%nat ->
    exists e, fst (fn (Retry.after fn i w)) = Throw e /\ status_is e 503 = true.

(** The delays slept before attempt [n + 1]: [delayMs], twice that, ... *)
Definition delays (delayMs : Z) (n : nat) : list Z :=
  List.map (fun i => delayMs * 2 ^ Z.of_nat i) (List.seq 0 n).

(** The response of the handler to a [TypeError] raised by the runtime. *)
Definition generic_500 (msg : string) : HttpResponse :=
  mkResponse 500
    (ErrorBody "Chat service temporarily unavailable" msg (Some "TypeError")).

(** The rewrite request for a question that is a string, when no user
    turn precedes it. *)
Definition rewrite_of (q : string) : GenRequest :=
  mkGenRequest "gemini-2.5-flash"
    [mkChat (JStr "user")
       [mkPart (JStr ("Previous user messages:" ++ Str.nl ++ Str.nl
                      ++ "Follow-up question: " ++ q))]]
    Chat.rewrite_instruction None.

(** A question that cannot be converted to a string: an object with an own
    property [toString]. *)
Definition unprintable : JsVal := JObj [("toString", JNum false "1")].

(** A failure that [JSON.stringify] cannot serialise. *)
Definition circular : JsError :=
  mkJsError (Some "socket hang up") None "FetchError"
    (Some "Converting circular structure to JSON").

(** Services whose first generation call fails with [circular]. *)
Definition generation_circular : Services nat unit unit :=
  mkServices nat unit unit
    (fun n => (Ok tt, n))
    (fun _ n => (Throw circular, S n))
    (fun _ n => (Ok tt, S n))
    (fun _ _ _ n => (Ok (mkQueryResponse None), S n)).

(** An operation that succeeds at once. *)
Definition always_fine (n : nat) : Outcome Z * nat := (Ok 7, S n).

(** Services whose embedding call fails for a spent quota; the world
    counts the calls made to any service. *)
Definition embedding_down : Services nat unit unit :=
  mkServices nat unit unit
    (fun n => (Ok tt, n))
    (fun _ n => (Ok (mkGenResponse (Some "rewritten")), S n))
    (fun _ n => (Throw (mkError (Some "You exceeded your current quota")
                          (Some 429) "ApiError"), S n))
    (fun _ _ _ n => (Ok (mkQueryResponse None), S n)).

(** Services whose session lookup fails. *)
Definition session_down : Services nat unit unit :=
  mkServices nat unit unit
    (fun n => (Throw (mkError (Some "session store unreachable") None "Error"), S n))
    (fun _ n => (Ok (mkGenResponse (Some "rewritten")), S n))
    (fun _ n => (Ok tt, S n))
    (fun _ _ _ n => (Ok (mkQueryResponse None), S n)).

Definition greeting : Page.Message :=
  Page.mkMessage 1 Page.bot "Namaste! How can I support you?" (Some "09:00") None None.

Definition asked : Page.Message :=
  Page.mkMessage 2 Page.user "What is vata?" (Some "09:01") None None.

Definition blank_reply : Page.Message :=
  Page.mkMessage 3 Page.bot EmptyString None None None.

End More.

(* ===================================================================== *)
(** * Properties *)
(* ===================================================================== *)

(** ** Retry helper *)

Module RetryFacts.
Import Retry.

Section Facts.
Context {W T : Type}.
Variable fn : W -> Outcome T * W.

Lemma after_succ_r (n : nat) (w : W) :
  after fn (S n) w = after fn n (snd (fn w)).
Proof. unfold after. apply Nat.iter_succ_r. Qed.

Lemma attempts_remain_spec (attempt : Z) (maxRetries : Q) :
  attempts_remain attempt maxRetries = true <-> (inject_Z attempt < maxRetries)%Q.
Proof.
  unfold attempts_remain. rewrite negb_true_iff.
  destruct (Qle_bool maxRetries (inject_Z attempt)) eqn:E.
  - apply Qle_bool_iff in E. split; [discriminate|].
    intros H. exfalso. exact (Qlt_not_le _ _ H E).
  - split; [intros _|reflexivity]. apply Qnot_le_lt. intros H.
    apply Qle_bool_iff in H. congruence.
Qed.

Lemma attempts_remain_false (attempt : Z) (maxRetries : Q) :
  (maxRetries <= inject_Z attempt)%Q -> attempts_remain attempt maxRetries = false.
Proof.
  intros H. unfold attempts_remain. apply negb_false_iff, Qle_bool_iff, H.
Qed.

Lemma floor_below (n : Z) (maxRetries : Q) :
  (inject_Z n <= maxRetries)%Q -> n <= Qfloor maxRetries.
Proof.
  intros H. apply Qfloor_resp_le in H. rewrite Qfloor_Z in H. exact H.
Qed.

Lemma attempts_nonpos (maxRetries : Q) :
  (maxRetries <= 0)%Q -> attempts maxRetries = [].
Proof.
  intros H. unfold attempts. apply Qfloor_resp_le in H.
  change (Qfloor 0) with 0 in H.
  replace (Z.to_nat (Qfloor maxRetries)) with 0%nat by lia. reflexivity.
Qed.

Lemma attempts_first (maxRetries : Q) :
  (1 <= maxRetries)%Q ->
  attempts maxRetries =
  1 :: List.map Z.of_nat (List.seq 2 (Z.to_nat (Qfloor maxRetries) - 1)).
Proof.
  intros H. unfold attempts. apply (floor_below 1) in H.
  replace (Z.to_nat (Qfloor maxRetries))
    with (S (Z.to_nat (Qfloor maxRetries) - 1)) at 1 by lia.
  reflexivity.
Qed.

Lemma attempts_integer (maxRetries : Z) :
  attempts (inject_Z maxRetries)
  = List.map Z.of_nat (List.seq 1 (Z.to_nat maxRetries)).
Proof. unfold attempts. rewrite Qfloor_Z. reflexivity. Qed.

(** With no attempt allowed the operation is never invoked and the run
    ends after the loop. *)
Lemma run_nonpos (maxRetries : Q) (delayMs : Z) (w : W) :
  (maxRetries <= 0)%Q ->
  run fn maxRetries delayMs w = mkRun Exhausted w [].
Proof.
  intros H. unfold run. rewrite (attempts_nonpos _ H). reflexivity.
Qed.

(** The loop over the attempts [a, a+1, ..., a+k-1], the last of which is
    not below [maxRetries], never falls through, and what it returns or
    rethrows comes from one of its at most [k] invocations. *)
Lemma loop_exit (maxRetries : Q) (k : nat) :
  forall (a : nat) (delayMs : Z) (w : W),
    (1 <= k)%nat ->
    (maxRetries <= inject_Z (Z.of_nat (a + k - 1)))%Q ->
    let r := loop fn (List.map Z.of_nat (List.seq a k)) maxRetries delayMs w in
    exists n : nat,
      (n < k)%nat /\
      world r = after fn (S n) w /\
      List.length (sleeps r) = n /\
      match exit r with
      | Returned v => fst (fn (after fn n w)) = Ok v
      | Rethrown e => fst (fn (after fn n w)) = Throw e
      | Exhausted => False
      end.
Proof.
  induction k as [|k IH]; intros a delayMs w Hk Ha; [lia|].
  cbn [List.seq List.map loop].
  destruct (fn w) as [o w'] eqn:Efn.
  assert (Hstep : snd (fn w) = w') by (rewrite Efn; reflexivity).
  destruct o as [v|e].
  - exists 0%nat. cbn. rewrite Efn. repeat split; auto; lia.
  - destruct (status_is e 503 && attempts_remain (Z.of_nat a) maxRetries)%bool
      eqn:Eretry.
    + apply andb_true_iff in Eretry as [_ Hlt].
      apply attempts_remain_spec in Hlt.
      pose proof (Qlt_le_trans _ _ _ Hlt Ha) as Hlt'.
      rewrite <- Zlt_Qlt in Hlt'.
      destruct k as [|k']; [lia|].
      destruct (IH (S a) (delayMs * 2) w') as (n & Hn & Hw & Hs & Hx); [lia| |].
      { replace (S a + S k' - 1)%nat with (a + S (S k') - 1)%nat by lia.
        exact Ha. }
      exists (S n). rewrite (after_succ_r (S n) w), (after_succ_r n w), Hstep.
      cbn [exit world sleeps List.length].
      repeat split; auto; lia.
    + exists 0%nat. cbn. rewrite Efn. repeat split; auto; lia.
Qed.

(** Every delay handed to [setTimeout] is twice the one before it, starting
    from [delayMs]. *)
Lemma loop_backoff (maxRetries : Q) (todo : list Z) :
  forall (delayMs : Z) (w : W) (i : nat) (d : Z),
    List.nth_error (sleeps (loop fn todo maxRetries delayMs w)) i = Some d ->
    d = delayMs * 2 ^ Z.of_nat i.
Proof.
  induction todo as [|attempt rest IH]; intros delayMs w i d H.
  - destruct i; discriminate.
  - cbn [loop] in H. destruct (fn w) as [[v|e] w'].
    + destruct i; discriminate.
    + destruct (status_is e 503 && attempts_remain attempt maxRetries)%bool.
      * cbn [sleeps] in H. destruct i as [|i].
        -- cbn in H. injection H as <-. cbn. lia.
        -- cbn [List.nth_error] in H. apply IH in H. subst d.
           rewrite Nat2Z.inj_succ, Z.pow_succ_r by lia. lia.
      * destruct i; discriminate.
Qed.

End Facts.

(** C3: with [maxRetries = 3], an operation that fails with status 503 on
    its first two invocations and succeeds on the third makes [withRetry]
    return the success value after exactly three invocations; an operation
    whose failure does not carry status 503 is invoked exactly once, for
    every [maxRetries >= 1], and [withRetry] throws that very error. *)
Theorem withRetry_retries_only_overload
    {W T : Type} (fn : W -> Outcome T * W) (delayMs : Z) (w0 : W) :
  (forall (e1 e2 : JsError) (v : T) (w1 w2 w3 : W),
      fn w0 = (Throw e1, w1) -> status e1 = Some 503 ->
      fn w1 = (Throw e2, w2) -> status e2 = Some 503 ->
      fn w2 = (Ok v, w3) ->
      withRetry (counted fn) 3 delayMs (w0, 0%nat) = (Ok v, (w3, 3%nat)))
  /\
  (forall (maxRetries : Q) (e : JsError),
      (1 <= maxRetries)%Q ->
      (forall w : W, fst (fn w) = Throw e) ->
      status_is e 503 = false ->
      withRetry (counted fn) maxRetries delayMs (w0, 0%nat)
      = (Throw e, (snd (fn w0), 1%nat))).
Proof.
  split.
  - intros e1 e2 v w1 w2 w3 H1 S1 H2 S2 H3.
    assert (T1 : status_is e1 503 = true)
      by (unfold status_is; rewrite S1; reflexivity).
    assert (T2 : status_is e2 503 = true)
      by (unfold status_is; rewrite S2; reflexivity).
    unfold withRetry, run. change (attempts 3) with [1; 2; 3].
    cbn [loop counted]. rewrite H1, T1.
    change (attempts_remain 1 3) with true. cbn [andb loop counted].
    rewrite H2, T2.
    change (attempts_remain 2 3) with true. cbn [andb loop counted].
    rewrite H3. reflexivity.
  - intros maxRetries e Hm Hfail Hs.
    unfold withRetry, run. rewrite (attempts_first _ Hm).
    cbn [loop counted]. specialize (Hfail w0).
    destruct (fn w0) as [o w1]. cbn in Hfail. subst o.
    rewrite Hs. reflexivity.
Qed.

Lemma withRetry_retries_only_overload_witness :
  withRetry (counted Scenario.twice_overloaded) 3 1000 (0%nat, 0%nat)
  = (Ok 42, (3%nat, 3%nat))
  /\
  withRetry (counted Scenario.always_bad) 3 1000 (0%nat, 0%nat)
  = (Throw Scenario.bad_request, (1%nat, 1%nat)).
Proof.
  split.
  - apply (proj1 (withRetry_retries_only_overload
                    Scenario.twice_overloaded 1000 0%nat)
             Scenario.overloaded Scenario.overloaded 42 1%nat 2%nat 3%nat);
      reflexivity.
  - apply (proj2 (withRetry_retries_only_overload
                    Scenario.always_bad 1000 0%nat)
             3%Q Scenario.bad_request);
      [discriminate | reflexivity | reflexivity].
Defined.

(** C9, as the helper has it: for every integer [maxRetries >= 1] a run
    of [withRetry] ends inside the loop: it returns the value, or rethrows
    the error, of one of its at most [maxRetries] invocations of the
    operation, and never reaches the failure raised after the loop. *)
Theorem withRetry_exit_from_operation
    {W T : Type} (fn : W -> Outcome T * W) (maxRetries delayMs : Z) (w : W) :
  1 <= maxRetries ->
  exit (run fn (inject_Z maxRetries) delayMs w) <> Exhausted /\
  exists n : nat,
    Z.of_nat n < maxRetries /\
    ((exists v : T,
         fn (after fn n w) = (Ok v, after fn (S n) w) /\
         exit (run fn (inject_Z maxRetries) delayMs w) = Returned v /\
         withRetry fn (inject_Z maxRetries) delayMs w
         = (Ok v, after fn (S n) w))
     \/
     (exists e : JsError,
         fn (after fn n w) = (Throw e, after fn (S n) w) /\
         exit (run fn (inject_Z maxRetries) delayMs w) = Rethrown e /\
         withRetry fn (inject_Z maxRetries) delayMs w
         = (Throw e, after fn (S n) w))).
Proof.
  intros Hm.
  pose proof (loop_exit fn (inject_Z maxRetries) (Z.to_nat maxRetries) 1
                delayMs w) as H.
  destruct H as (n & Hn & Hw & _ & Hx); [lia | |].
  { rewrite <- Zle_Qle. lia. }
  rewrite <- attempts_integer in Hw, Hx.
  fold (run fn (inject_Z maxRetries) delayMs w) in Hw, Hx.
  assert (Hpair : forall o, fst (fn (after fn n w)) = o ->
                            fn (after fn n w) = (o, after fn (S n) w)).
  { intros o <-. change (after fn (S n) w) with (snd (fn (after fn n w))).
    destruct (fn (after fn n w)); reflexivity. }
  unfold withRetry.
  destruct (exit (run fn (inject_Z maxRetries) delayMs w)) as [v|e|] eqn:Ex;
    [| |contradiction].
  - split; [discriminate|]. exists n. split; [lia|]. left. exists v.
    rewrite Hw. auto.
  - split; [discriminate|]. exists n. split; [lia|]. right. exists e.
    rewrite Hw. auto.
Qed.

Lemma withRetry_exit_from_operation_witness :
  exit (run Scenario.always_overloaded (inject_Z 3) 1000 0%nat) <> Exhausted /\
  exists n : nat,
    Z.of_nat n < 3 /\
    ((exists v : Z,
         Scenario.always_overloaded (after Scenario.always_overloaded n 0%nat)
         = (Ok v, after Scenario.always_overloaded (S n) 0%nat) /\
         exit (run Scenario.always_overloaded (inject_Z 3) 1000 0%nat)
         = Returned v /\
         withRetry Scenario.always_overloaded (inject_Z 3) 1000 0%nat
         = (Ok v, after Scenario.always_overloaded (S n) 0%nat))
     \/
     (exists e : JsError,
         Scenario.always_overloaded (after Scenario.always_overloaded n 0%nat)
         = (Throw e, after Scenario.always_overloaded (S n) 0%nat) /\
         exit (run Scenario.always_overloaded (inject_Z 3) 1000 0%nat)
         = Rethrown e /\
         withRetry Scenario.always_overloaded (inject_Z 3) 1000 0%nat
         = (Throw e, after Scenario.always_overloaded (S n) 0%nat))).
Proof.
  apply (withRetry_exit_from_operation Scenario.always_overloaded 3 1000 0%nat).
  lia.
Defined.

(** With [maxRetries = 1.5] and an operation that stays overloaded, the
    first failure is retried (1 < 1.5), the loop then ends (2 <= 1.5 fails)
    and the failure raised after the loop is what [withRetry] throws, after
    one invocation and one delay. *)
Lemma withRetry_fractional_budget_exhausts :
  run Scenario.always_overloaded (3 # 2) 1000 0%nat
  = mkRun Exhausted 1%nat [1000]
  /\ withRetry Scenario.always_overloaded (3 # 2) 1000 0%nat
     = (Throw (mkError (Some "Max retries reached without success") None "Error"),
        1%nat).
Proof. split; reflexivity. Qed.

(** The run of the witness above, evaluated: three invocations, two delays,
    the third overload rethrown. *)
Example always_overloaded_run :
  run Scenario.always_overloaded 3 1000 0%nat
  = mkRun (Rethrown Scenario.overloaded) 3%nat [1000; 2000].
Proof. reflexivity. Qed.

End RetryFacts.

(** ** String facts *)

Module StrFacts.
Import Str.

Lemma string_length_ind (P : string -> Prop) :
  (forall s, (forall r, (String.length r < String.length s)%nat -> P r) -> P s) ->
  forall s, P s.
Proof.
  intros H s.
  assert (Hn : forall n r, (String.length r < n)%nat -> P r).
  { induction n as [|n IH]; intros r Hr; [lia|].
    apply H. intros r' Hr'. apply IH. lia. }
  apply (Hn (S (String.length s))). lia.
Qed.

Lemma append_assoc (a b c : string) : (a ++ b) ++ c = a ++ (b ++ c).
Proof. induction a as [|x a IH]; cbn; [reflexivity | now rewrite IH]. Qed.

Lemma append_nil_r (a : string) : a ++ EmptyString = a.
Proof. induction a as [|x a IH]; cbn; [reflexivity | now rewrite IH]. Qed.

Lemma length_append (a b : string) :
  String.length (a ++ b) = (String.length a + String.length b)%nat.
Proof. induction a as [|x a IH]; cbn; [reflexivity | now rewrite IH]. Qed.

(** What [drop_ws] removes is a non-empty prefix. *)
Lemma drop_ws_split (s r : string) :
  drop_ws s = Some r ->
  exists pre, s = pre ++ r /\ (0 < String.length pre)%nat
              /\ drop_ws pre = Some EmptyString.
Proof.
  unfold drop_ws. destruct s as [|c rest]; [discriminate|].
  destruct (is_ws c) eqn:E1.
  { intros [= <-]. exists (String c EmptyString). cbn. rewrite E1.
    repeat split. lia. }
  destruct rest as [|d rest2]; [discriminate|].
  destruct (is_ws2 c d) eqn:E2.
  { intros [= <-]. exists (String c (String d EmptyString)). cbn.
    rewrite E1, E2. repeat split. lia. }
  destruct rest2 as [|e rest3]; [discriminate|].
  destruct (is_ws3 c d e) eqn:E3; [|discriminate].
  intros [= <-]. exists (String c (String d (String e EmptyString))). cbn.
  rewrite E1, E2, E3. repeat split. lia.
Qed.

Lemma drop_ws_shorter (s r : string) :
  drop_ws s = Some r -> (String.length r < String.length s)%nat.
Proof.
  intros H. destruct (drop_ws_split s r H) as (pre & -> & Hpre & _).
  rewrite length_append. lia.
Qed.

(** A white-space character at the head of [a] is one at the head of
    [a ++ b]. *)
Lemma drop_ws_app (a r b : string) :
  drop_ws a = Some r -> drop_ws (a ++ b) = Some (r ++ b).
Proof.
  unfold drop_ws. destruct a as [|c rest]; [discriminate|]. cbn [append].
  destruct (is_ws c); [now intros [= <-]|].
  destruct rest as [|d rest2]; [discriminate|]. cbn [append].
  destruct (is_ws2 c d); [now intros [= <-]|].
  destruct rest2 as [|e rest3]; [discriminate|]. cbn [append].
  destruct (is_ws3 c d e); [now intros [= <-]|discriminate].
Qed.

Lemma trimStart_unfold (s : string) :
  trimStart s = match drop_ws s with
                | Some r => trimStart r
                | None => s
                end.
Proof.
  destruct s as [|c rest]; [reflexivity|]. cbn [trimStart drop_ws].
  destruct (is_ws c); [reflexivity|].
  destruct rest as [|d rest2]; [reflexivity|].
  destruct (is_ws2 c d); [reflexivity|].
  destruct rest2 as [|e rest3]; [reflexivity|].
  destruct (is_ws3 c d e); reflexivity.
Qed.

Lemma all_ws_unfold (s : string) :
  all_ws s = match s with
             | EmptyString => true
             | String _ _ =>
                 match drop_ws s with
                 | Some r => all_ws r
                 | None => false
                 end
             end.
Proof.
  destruct s as [|c rest]; [reflexivity|]. cbn [all_ws drop_ws].
  destruct (is_ws c); [reflexivity|].
  destruct rest as [|d rest2]; [reflexivity|].
  destruct (is_ws2 c d); [reflexivity|].
  destruct rest2 as [|e rest3]; [reflexivity|].
  destruct (is_ws3 c d e); reflexivity.
Qed.

Lemma trimEnd_unfold (s : string) :
  trimEnd s = if all_ws s then EmptyString
              else match s with
                   | EmptyString => EmptyString
                   | String c rest => String c (trimEnd rest)
                   end.
Proof. destruct s; reflexivity. Qed.

Lemma trimStart_all_ws (s : string) :
  all_ws s = true -> trimStart s = EmptyString.
Proof.
  induction s as [s IH] using string_length_ind. intros H.
  rewrite trimStart_unfold. rewrite all_ws_unfold in H.
  destruct s as [|c rest]; [reflexivity|].
  destruct (drop_ws (String c rest)) as [r|] eqn:E; [|discriminate].
  apply IH; [apply (drop_ws_shorter _ _ E) | exact H].
Qed.

(** What [trimStart] returns does not start with white space. *)
Lemma trimStart_stops (s : string) : drop_ws (trimStart s) = None.
Proof.
  induction s as [s IH] using string_length_ind.
  rewrite trimStart_unfold.
  destruct (drop_ws s) as [r|] eqn:E; [|exact E].
  apply IH, (drop_ws_shorter _ _ E).
Qed.

Lemma all_ws_trimStart (s : string) : all_ws (trimStart s) = all_ws s.
Proof.
  induction s as [s IH] using string_length_ind.
  rewrite trimStart_unfold, (all_ws_unfold s).
  destruct s as [|c rest]; [reflexivity|].
  destruct (drop_ws (String c rest)) as [r|] eqn:E.
  - apply IH, (drop_ws_shorter _ _ E).
  - rewrite all_ws_unfold, E. reflexivity.
Qed.

(** [trimStart] returns a suffix. *)
Lemma trimStart_suffix (s : string) : exists pre, s = pre ++ trimStart s.
Proof.
  induction s as [s IH] using string_length_ind.
  rewrite trimStart_unfold.
  destruct (drop_ws s) as [r|] eqn:E; [|exists EmptyString; reflexivity].
  destruct (drop_ws_split s r E) as (pre & Hs & _).
  destruct (IH r (drop_ws_shorter _ _ E)) as (pre' & Hr).
  exists (pre ++ pre'). rewrite append_assoc, <- Hr. exact Hs.
Qed.

Lemma all_ws_app (a b : string) :
  all_ws a = true -> all_ws (a ++ b) = all_ws b.
Proof.
  induction a as [a IH] using string_length_ind. intros H.
  destruct a as [|c rest]; [reflexivity|].
  rewrite all_ws_unfold in H.
  destruct (drop_ws (String c rest)) as [r|] eqn:E; [|discriminate].
  rewrite all_ws_unfold. cbn [append]. change (String c (rest ++ b))
    with (String c rest ++ b).
  rewrite (drop_ws_app _ _ b E).
  apply IH; [apply (drop_ws_shorter _ _ E) | exact H].
Qed.

Lemma trimEnd_empty_iff (s : string) :
  trimEnd s = EmptyString <-> all_ws s = true.
Proof.
  rewrite trimEnd_unfold. destruct (all_ws s) eqn:E.
  - split; reflexivity.
  - destruct s; [discriminate E|]. split; discriminate.
Qed.

(** [trimEnd] returns a prefix, and what it leaves out is white space. *)
Lemma trimEnd_split (s : string) :
  exists post, s = trimEnd s ++ post /\ all_ws post = true.
Proof.
  induction s as [|c rest IH].
  - exists EmptyString. split; reflexivity.
  - rewrite trimEnd_unfold. destruct (all_ws (String c rest)) eqn:E.
    + exists (String c rest). split; [reflexivity | exact E].
    + destruct IH as (post & Hrest & Hpost). exists post.
      split; [|exact Hpost]. cbn [append]. rewrite <- Hrest. reflexivity.
Qed.

Lemma trimEnd_idempotent (s : string) : trimEnd (trimEnd s) = trimEnd s.
Proof.
  induction s as [|c rest IH]; [reflexivity|].
  rewrite (trimEnd_unfold (String c rest)).
  destruct (all_ws (String c rest)) eqn:E; [reflexivity|].
  rewrite trimEnd_unfold.
  destruct (all_ws (String c (trimEnd rest))) eqn:E'.
  - exfalso. destruct (trimEnd_split rest) as (post & Hrest & Hpost).
    assert (Hall : all_ws (String c (trimEnd rest) ++ post) = true)
      by (rewrite (all_ws_app _ _ E'); exact Hpost).
    cbn [append] in Hall. rewrite <- Hrest in Hall. congruence.
  - rewrite IH. reflexivity.
Qed.

(** Trimming the end of a string that does not start with white space
    leaves one that does not either. *)
Lemma drop_ws_trimEnd (s : string) :
  drop_ws s = None -> drop_ws (trimEnd s) = None.
Proof.
  intros H. destruct (drop_ws (trimEnd s)) as [r|] eqn:E; [|reflexivity].
  destruct (trimEnd_split s) as (post & Hs & _).
  apply (drop_ws_app _ _ post) in E. rewrite <- Hs in E. congruence.
Qed.

Lemma trimStart_trim (s : string) : trimStart (trim s) = trim s.
Proof.
  unfold trim. rewrite trimStart_unfold.
  rewrite (drop_ws_trimEnd _ (trimStart_stops s)). reflexivity.
Qed.

Lemma trim_idempotent (s : string) : trim (trim s) = trim s.
Proof.
  unfold trim at 1. rewrite trimStart_trim. unfold trim.
  apply trimEnd_idempotent.
Qed.

(** [t.trim()] is empty exactly when [t] consists of white space only. *)
Lemma trim_empty_iff (t : string) :
  trim t = EmptyString <-> all_ws t = true.
Proof.
  unfold trim. rewrite trimEnd_empty_iff, all_ws_trimStart. reflexivity.
Qed.

Example includes_api_key :
  includes "Invalid API key provided" "API key" = true
  /\ includes "api key missing" "API key" = false
  /\ includes "You exceeded your current quota" "quota" = true.
Proof. repeat split. Qed.

Example trim_both_ends :
  trim (" " ++ nl ++ "a b" ++ nl ++ " ") = "a b"
  /\ trim ("  " ++ nl) = EmptyString.
Proof. repeat split. Qed.

(** U+00A0 before and U+3000 after a word are trimmed, and a text made of
    U+00A0 and U+FEFF is white space. *)
Example trim_unicode :
  trim (String (ascii_of_nat 194) (String (ascii_of_nat 160) "Vata")
        ++ String (ascii_of_nat 227)
             (String (ascii_of_nat 128) (String (ascii_of_nat 128) EmptyString)))
  = "Vata"
  /\ all_ws (String (ascii_of_nat 194) (String (ascii_of_nat 160)
               (String (ascii_of_nat 239) (String (ascii_of_nat 187)
                  (String (ascii_of_nat 191) EmptyString)))))
     = true.
Proof. repeat split. Qed.

End StrFacts.

(** ** Pure steps of the handler *)

Module ChatFacts.
Import Chat Words.

(** [t.trim().length > 0] keeps exactly the texts that are neither empty
    nor white space only. *)
Lemma nonblank_spec (t : string) : nonblank t = negb (Str.all_ws t).
Proof.
  unfold nonblank. destruct (Str.all_ws t) eqn:Hall.
  - apply StrFacts.trim_empty_iff in Hall. rewrite Hall. reflexivity.
  - destruct (Str.trim t) eqn:E.
    + apply StrFacts.trim_empty_iff in E. congruence.
    + cbn [String.length negb]. apply Z.ltb_lt. lia.
Qed.


(** C7: the rewritten question is the text returned by the service when
    that text is usable; otherwise it is the follow-up question itself when
    that is not empty; otherwise it is "No question generated.". *)
Theorem enhancedQuestion_chain (r : GenResponse) (q : JsVal) :
  (forall s, response_text r = Some s -> s <> EmptyString ->
             enhancedQuestion r q = JStr s)
  /\ (usable r = false -> Js.truthy q = true -> enhancedQuestion r q = q)
  /\ (usable r = false -> Js.truthy q = false ->
      enhancedQuestion r q = JStr "No question generated.").
Proof.
  unfold enhancedQuestion, usable, Js.or. repeat split.
  - intros s Hs Hne. rewrite Hs. cbn [text_val].
    assert (Ht : Js.truthy (JStr s) = true).
    { cbn. destruct (String.eqb_spec s EmptyString); [contradiction|reflexivity]. }
    rewrite Ht. cbn iota. rewrite Ht. reflexivity.
  - intros Hu Hq. rewrite Hu, Hq. reflexivity.
  - intros Hu Hq. rewrite Hu, Hq. reflexivity.
Qed.

Lemma enhancedQuestion_chain_witness :
  enhancedQuestion (mkGenResponse (Some "What is pitta dosha?")) (JStr "and pitta?")
  = JStr "What is pitta dosha?"
  /\ enhancedQuestion (mkGenResponse None) (JStr "and pitta?") = JStr "and pitta?"
  /\ enhancedQuestion (mkGenResponse (Some EmptyString)) (JStr EmptyString)
     = JStr "No question generated.".
Proof.
  split; [|split].
  - apply (proj1 (enhancedQuestion_chain
                    (mkGenResponse (Some "What is pitta dosha?"))
                    (JStr "and pitta?")) "What is pitta dosha?");
      [reflexivity | discriminate].
  - apply (proj1 (proj2 (enhancedQuestion_chain (mkGenResponse None)
                           (JStr "and pitta?")))); reflexivity.
  - apply (proj2 (proj2 (enhancedQuestion_chain
                           (mkGenResponse (Some EmptyString))
                           (JStr EmptyString)))); reflexivity.
Defined.

Lemma ends_with_user_nil : ends_with_user [] = false.
Proof. reflexivity. Qed.

Lemma ends_with_user_snoc (init : list ChatHistory) (m : ChatHistory) :
  ends_with_user ((init ++ [m])%list) = is_user m.
Proof.
  unfold ends_with_user, is_user. rewrite List.length_app. cbn [List.length].
  replace (List.length init + 1 - 1)%nat with (List.length init) by lia.
  rewrite List.nth_error_app2 by lia. rewrite Nat.sub_diag. cbn [List.nth_error].
  replace (0 <? Z.of_nat (List.length init + 1)) with true
    by (symmetry; apply Z.ltb_lt; lia).
  reflexivity.
Qed.

(** C4: when the last normalized entry is a user turn the rewrite replaces
    it (same length, the raw turn is gone); when it is not, or the history
    is empty, the rewritten turn is appended (length plus one); either way
    the history ends with the user turn that carries the enhanced
    question, and its earlier entries are those of the input without the
    replaced turn. *)
Theorem replace_last_shape (formatted : list ChatHistory) (enhanced : JsVal) :
  (forall init m,
      formatted = (init ++ [m])%list -> is_user m = true ->
      replace_last formatted enhanced = (init ++ [user_turn enhanced])%list /\
      List.length (replace_last formatted enhanced) = List.length formatted)
  /\ (forall init m,
      formatted = (init ++ [m])%list -> is_user m = false ->
      replace_last formatted enhanced = (formatted ++ [user_turn enhanced])%list /\
      List.length (replace_last formatted enhanced) = S (List.length formatted))
  /\ (formatted = [] ->
      replace_last formatted enhanced = [user_turn enhanced] /\
      List.length (replace_last formatted enhanced) = S (List.length formatted))
  /\ List.last (replace_last formatted enhanced) (user_turn JUndefined)
     = user_turn enhanced
  /\ first_text (user_turn enhanced) = Ok enhanced
  /\ is_user (user_turn enhanced) = true
  /\ List.removelast (replace_last formatted enhanced)
     = if ends_with_user formatted then List.removelast formatted else formatted.
Proof.
  unfold replace_last. split; [|split; [|split; [|split; [|split; [|split]]]]].
  - intros init m -> Hm. rewrite ends_with_user_snoc, Hm.
    rewrite List.removelast_last, !List.length_app. split; reflexivity.
  - intros init m -> Hm. rewrite ends_with_user_snoc, Hm.
    rewrite !List.length_app. cbn [List.length]. split; [reflexivity | lia].
  - intros ->. split; reflexivity.
  - apply List.last_last.
  - reflexivity.
  - reflexivity.
  - apply List.removelast_last.
Qed.

Lemma replace_last_shape_witness :
  (replace_last Scenario.ends_user (JStr "What is pitta dosha?")
   = [mkChat (JStr "user") [mkPart (JStr "What is vata?")];
      mkChat (JStr "model") [mkPart (JStr "Vata is one of the doshas.")];
      user_turn (JStr "What is pitta dosha?")]
   /\ List.length (replace_last Scenario.ends_user (JStr "What is pitta dosha?"))
      = List.length Scenario.ends_user)
  /\ (replace_last Scenario.ends_model (JStr "What is pitta dosha?")
      = (Scenario.ends_model ++ [user_turn (JStr "What is pitta dosha?")])%list
      /\ List.length (replace_last Scenario.ends_model (JStr "What is pitta dosha?"))
         = S (List.length Scenario.ends_model))
  /\ (replace_last [] (JStr "What is pitta dosha?")
      = [user_turn (JStr "What is pitta dosha?")]
      /\ List.length (replace_last [] (JStr "What is pitta dosha?")) = 1%nat).
Proof.
  split; [|split].
  - apply (proj1 (replace_last_shape Scenario.ends_user
                    (JStr "What is pitta dosha?"))
             [mkChat (JStr "user") [mkPart (JStr "What is vata?")];
              mkChat (JStr "model") [mkPart (JStr "Vata is one of the doshas.")]]
             (mkChat (JStr "user") [mkPart (JStr "and pitta?")]));
      reflexivity.
  - apply (proj1 (proj2 (replace_last_shape Scenario.ends_model
                           (JStr "What is pitta dosha?")))
             [mkChat (JStr "user") [mkPart (JStr "What is vata?")]]
             (mkChat (JStr "model") [mkPart (JStr "Vata is one of the doshas.")]));
      reflexivity.
  - apply (proj1 (proj2 (proj2 (replace_last_shape []
                                  (JStr "What is pitta dosha?")))));
      reflexivity.
Defined.

(** The [catch] clause agrees with the table of section 4.6. *)
Lemma classify_category (e : JsError) :
  classify e = category_response (category e) e.
Proof.
  unfold classify, category, is_configuration, is_capacity, json_status.
  destruct (message_includes e "API key" || status_is e 403)%bool;
    [reflexivity|].
  destruct (message_includes e "quota" || status_is e 429)%bool; reflexivity.
Qed.

(** C2, as the handler has it: every failure falls into exactly one
    category, decided by the rows of the table taken in order -- API-key
    message or status 403: configuration; else quota message or status 429:
    capacity; else generic -- and the status codes are 500 for
    configuration, 503 for capacity and 500 for generic. *)
Theorem classify_total (e : JsError) :
  classify e = category_response (category e) e
  /\ http_status (classify e) = category_status (category e)
  /\ (is_configuration e = true -> category e = Configuration)
  /\ (is_configuration e = false -> is_capacity e = true ->
      category e = Capacity)
  /\ (is_configuration e = false -> is_capacity e = false ->
      category e = Generic)
  /\ category_status Configuration = 500
  /\ category_status Capacity = 503
  /\ category_status Generic = 500.
Proof.
  split; [apply classify_category|].
  split; [rewrite classify_category; destruct (category e); reflexivity|].
  unfold category. repeat split.
  - intros ->. reflexivity.
  - intros -> ->. reflexivity.
  - intros -> ->. reflexivity.
Qed.

Lemma classify_total_witness :
  category Scenario.forbidden = Configuration
  /\ category Scenario.rate_limited = Capacity
  /\ category Scenario.bad_request = Generic.
Proof.
  split; [|split].
  - apply (proj1 (proj2 (proj2 (classify_total Scenario.forbidden)))).
    reflexivity.
  - apply (proj1 (proj2 (proj2 (proj2 (classify_total Scenario.rate_limited)))));
      reflexivity.
  - apply (proj1 (proj2 (proj2 (proj2 (proj2
             (classify_total Scenario.bad_request))))));
      reflexivity.
Defined.

(** Two failures of different categories receive the same status code:
    the codes of the configuration and of the generic category are both
    500. *)
Lemma classify_status_shared :
  category Scenario.forbidden = Configuration
  /\ category Scenario.bad_request = Generic
  /\ http_status (classify Scenario.forbidden) = 500
  /\ http_status (classify Scenario.bad_request) = 500
  /\ category_status Configuration = category_status Generic.
Proof. repeat split. Qed.

End ChatFacts.

(** ** History normalizer *)

Module NormalizerFacts.
Import Chat Words.

Lemma filterM_pure {A : Type} (p : A -> Outcome bool) (q : A -> bool)
    (l : list A) :
  List.Forall (fun x => p x = Ok (q x)) l ->
  filterM p l = Ok (List.filter q l).
Proof.
  induction 1 as [|x l Hx _ IH]; cbn; [reflexivity|].
  rewrite Hx, IH. cbn. destruct (q x); reflexivity.
Qed.

Lemma mapM_pure {A B : Type} (f : A -> Outcome B) (g : A -> B) (l : list A) :
  List.Forall (fun x => f x = Ok (g x)) l ->
  mapM f l = Ok (List.map g l).
Proof.
  induction 1 as [|x l Hx _ IH]; cbn; [reflexivity|].
  rewrite Hx, IH. reflexivity.
Qed.

Lemma mapM_Forall {A B : Type} (f : A -> Outcome B) (P : B -> Prop) :
  (forall x y, f x = Ok y -> P y) ->
  forall l l', mapM f l = Ok l' -> List.Forall P l'.
Proof.
  intros Hf. induction l as [|x l IH]; cbn; intros l' H.
  - injection H as <-. constructor.
  - destruct (f x) as [y|e] eqn:Ex; cbn in H; [|discriminate].
    destruct (mapM f l) as [ys|e] eqn:El; cbn in H; [|discriminate].
    injection H as <-. constructor; eauto.
Qed.

(** Away from entries whose first part is [null], the filter predicate does
    not throw and decides [well_formed]. *)
Lemma keep_entry_spec (msg : JsVal) :
  null_first_part msg = false -> keep_entry msg = Ok (well_formed msg).
Proof.
  unfold null_first_part, well_formed, first_part, keep_entry.
  destruct msg as [| |[|]|n|s|elems|fields]; cbn; try reflexivity.
  - destruct n; reflexivity.
  - destruct (negb (String.eqb s EmptyString)); reflexivity.
  - destruct (Js.truthy (Js.lookup "role" fields)); cbn; [|reflexivity].
    destruct (Js.lookup "parts" fields) as [| | | | |[|p rest]|]; cbn;
      try reflexivity.
    destruct p; cbn; (discriminate || reflexivity).
Qed.

(** On a well-formed entry the mapping function yields the canonical
    entry. *)
Lemma to_entry_spec (msg : JsVal) :
  well_formed msg = true -> to_entry msg = Ok (canonical msg).
Proof.
  unfold well_formed, canonical, first_part, to_entry.
  destruct msg as [| | | | | |fields]; cbn; try discriminate.
  destruct (Js.lookup "parts" fields) as [| | | | |[|p rest]|]; cbn;
    try (rewrite andb_false_r; discriminate).
  destruct p; cbn; try (rewrite andb_false_r; discriminate).
  reflexivity.
Qed.

(** The normalizer on a list free of entries with a [null] first part:
    exactly the well-formed entries are kept, in their order, each reduced
    to its role and first text fragment, and nothing is thrown. *)
Lemma formattedHistory_spec (raw : list JsVal) :
  List.Forall (fun msg => null_first_part msg = false) raw ->
  formattedHistory (JArr raw)
  = Ok (List.map canonical (List.filter well_formed raw)).
Proof.
  intros Hsafe. unfold formattedHistory. cbn [Js.or Js.truthy].
  rewrite (filterM_pure keep_entry well_formed).
  - cbn [obind]. apply mapM_pure. apply List.Forall_forall.
    intros msg Hin. apply List.filter_In in Hin as [_ Hwf].
    apply to_entry_spec, Hwf.
  - eapply List.Forall_impl; [|exact Hsafe]. apply keep_entry_spec.
Qed.

(** An entry with a role whose first part is [null] makes the filter
    predicate throw. *)
Lemma keep_entry_throws (msg : JsVal) :
  null_first_part msg = true -> exists e, keep_entry msg = Throw e.
Proof.
  unfold null_first_part, first_part, keep_entry.
  destruct msg as [| | | | | |fields]; cbn; try discriminate.
  destruct (Js.truthy (Js.lookup "role" fields)); cbn; [|discriminate].
  destruct (Js.lookup "parts" fields) as [| | | | |[|p rest]|]; cbn;
    try discriminate.
  destruct p; cbn; try discriminate; eauto.
Qed.

Lemma filterM_throws {A : Type} (p : A -> Outcome bool) (l : list A) :
  List.Exists (fun x => exists e, p x = Throw e) l ->
  exists e, filterM p l = Throw e.
Proof.
  induction 1 as [x l [e Hx]|x l _ [e IH]]; cbn.
  - rewrite Hx. cbn. eauto.
  - destruct (p x); cbn; [|eauto]. rewrite IH. cbn. eauto.
Qed.

(** One such entry anywhere in the list makes the whole normalizer
    throw. *)
Lemma formattedHistory_throws (raw : list JsVal) :
  List.Exists (fun msg => null_first_part msg = true) raw ->
  exists e, formattedHistory (JArr raw) = Throw e.
Proof.
  intros Hbad. unfold formattedHistory. cbn [Js.or Js.truthy].
  destruct (filterM_throws keep_entry raw) as [e He].
  - eapply List.Exists_impl; [|exact Hbad]. apply keep_entry_throws.
  - exists e. rewrite He. reflexivity.
Qed.

(** Whatever the mapping function yields has one part. *)
Lemma to_entry_shape (msg : JsVal) (m : ChatHistory) :
  to_entry msg = Ok m -> exists r t, m = mkChat r [mkPart t].
Proof.
  unfold to_entry.
  destruct (get msg "role") as [r|]; cbn; [|discriminate].
  destruct (get msg "parts") as [ps|]; cbn; [|discriminate].
  destruct (index0 ps) as [p0|]; cbn; [|discriminate].
  destruct (get p0 "text") as [t|]; cbn; [|discriminate].
  intros H. injection H as <-. eauto.
Qed.

(** Reading the first text of the user turns never throws on a history the
    normalizer produced. *)
Lemma userHistory_total (history : JsVal) (formatted : list ChatHistory) :
  formattedHistory history = Ok formatted ->
  exists users, userHistory formatted = Ok users.
Proof.
  intros H.
  assert (Hshape : List.Forall (fun m => exists r t, m = mkChat r [mkPart t])
                     formatted).
  { unfold formattedHistory in H.
    destruct (Js.or history (JArr [])); try discriminate.
    destruct (filterM keep_entry elems) as [kept|]; cbn in H; [|discriminate].
    eapply mapM_Forall; [|exact H]. apply to_entry_shape. }
  unfold userHistory.
  assert (Hsub : List.Forall (fun m => exists r t, m = mkChat r [mkPart t])
                   (List.filter (fun msg => Js.eq_str (role msg) "user") formatted)).
  { apply List.Forall_forall. intros m Hin. apply List.filter_In in Hin as [Hin _].
    revert m Hin. apply List.Forall_forall, Hshape. }
  induction Hsub as [|m l (r & t & ->) _ [users IH]]; cbn.
  - eauto.
  - rewrite IH. cbn. eauto.
Qed.

(** C5, at the entry [{ role: "user", parts: [null] }]: the predicate of
    the filter reads [.text] of [null] and the normalizer throws a
    [TypeError] instead of dropping the entry. *)
Theorem formattedHistory_null_part :
  null_first_part Scenario.null_part_entry = true
  /\ well_formed Scenario.null_part_entry = false
  /\ formattedHistory
       (JArr [Scenario.turn "user" "What is vata?"; Scenario.null_part_entry])
     = Throw (TypeError "Cannot read properties of null (reading 'text')").
Proof. repeat split. Qed.

End NormalizerFacts.

(** ** The route handler *)

Module HandlerFacts.
Import Chat Words Handler.

Section Facts.
Context {World Embedding Session : Type}.
Variable svc : Services World Embedding Session.

(** The [try] block once the request has been read, its history
    normalized and the rewrite prompt built: the first awaited call is the
    rewrite call. *)
Lemma try_block_prefix (b q h : JsVal) (formatted : list ChatHistory)
    (users : list JsVal) (rq : GenRequest) (w : World) :
  destructure b = Ok (q, h) ->
  formattedHistory h = Ok formatted ->
  userHistory formatted = Ok users ->
  rewrite_request users q = Ok rq ->
  try_block svc (Ok b) w
  = match generateContent svc rq w with
    | (Throw e, w2) => (Throw e, w2)
    | (Ok r1, w2) =>
        match embedQuery svc (enhancedQuestion r1 q) w2 with
        | (Throw e, w3) => (Throw e, w3)
        | (Ok v, w3) =>
            match pineconeQuery svc 10 v true w3 with
            | (Throw e, w4) => (Throw e, w4)
            | (Ok sr, w4) =>
                match generateContent svc
                        (answer_request
                           (replace_last formatted (enhancedQuestion r1 q))
                           (context sr)) w4 with
                | (Throw e, w5) => (Throw e, w5)
                | (Ok r2, w5) => (Ok (json_ok (AnswerBody (answer r2))), w5)
                end
            end
        end
    end.
Proof.
  intros Hb Hf Hu Hr. unfold try_block, bind, lift, ret.
  rewrite Hb. cbn [fst snd]. rewrite Hf, Hu, Hr. reflexivity.
Qed.

(** The [try] block when the rewrite prompt cannot be built: nothing is
    awaited. *)
Lemma try_block_prompt_throws (b q h : JsVal) (formatted : list ChatHistory)
    (users : list JsVal) (e : JsError) (w : World) :
  destructure b = Ok (q, h) ->
  formattedHistory h = Ok formatted ->
  userHistory formatted = Ok users ->
  rewrite_request users q = Throw e ->
  try_block svc (Ok b) w = (Throw e, w).
Proof.
  intros Hb Hf Hu Hr. unfold try_block, bind, lift, ret.
  rewrite Hb. cbn [fst snd]. rewrite Hf, Hu, Hr. reflexivity.
Qed.

(** The handler once the session lookup has resolved. *)
Lemma POST_prefix (req : Outcome JsVal) (s : Session) (w w1 : World) :
  getServerSession svc w = (Ok s, w1) ->
  POST svc req w
  = match try_block svc req w1 with
    | (Ok r, w2) => (Responded r, w2)
    | (Throw e, w2) => (caught e, w2)
    end.
Proof. intros Hs. unfold POST. rewrite Hs. reflexivity. Qed.

End Facts.

(** Neither generation call goes through [withRetry]: when the rewrite
    call or the answer call fails, with status 503 or any other failure,
    the failure goes to the [catch] clause at once, in the world that the
    failed call left. *)
Lemma generation_failure_caught
    {World Embedding Session : Type} (svc : Services World Embedding Session)
    (b q h : JsVal) (formatted : list ChatHistory) (users : list JsVal)
    (rq : GenRequest) (s : Session) (w w1 : World) :
  getServerSession svc w = (Ok s, w1) ->
  destructure b = Ok (q, h) ->
  formattedHistory h = Ok formatted ->
  userHistory formatted = Ok users ->
  rewrite_request users q = Ok rq ->
  (forall e w2,
      generateContent svc rq w1 = (Throw e, w2) ->
      POST svc (Ok b) w = (caught e, w2))
  /\ (forall r1 w2 v w3 sr w4 e w5,
      generateContent svc rq w1 = (Ok r1, w2) ->
      embedQuery svc (enhancedQuestion r1 q) w2 = (Ok v, w3) ->
      pineconeQuery svc 10 v true w3 = (Ok sr, w4) ->
      generateContent svc
        (answer_request (replace_last formatted (enhancedQuestion r1 q))
           (context sr)) w4 = (Throw e, w5) ->
      POST svc (Ok b) w = (caught e, w5)).
Proof.
  intros Hs Hb Hf Hu Hr.
  rewrite (POST_prefix svc (Ok b) s w w1 Hs).
  rewrite (try_block_prefix svc b q h formatted users rq w1 Hb Hf Hu Hr).
  split.
  - intros e w2 H1. rewrite H1. reflexivity.
  - intros r1 w2 v w3 sr w4 e w5 H1 H2 H3 H4.
    rewrite H1, H2, H3, H4. reflexivity.
Qed.

(** C1, at a generative service that refuses the first call with status
    503 and would answer the next: the handler calls it once and responds
    500 with the generic error body, where a handler whose generation calls
    go through [withRetry], as sections 4.2 and 4.4 have it, calls it three
    times in all and responds 200. *)
Theorem retry_wrapper_not_applied :
  POST (Scenario.flaky (Some "Namaste") (Some []))
       (Scenario.request "hi" (JArr [])) 0%nat
  = (Responded
       (mkResponse 500
          (ErrorBody "Chat service temporarily unavailable"
             "The model is overloaded. Please try again later."
             (Some "ApiError"))),
     1%nat)
  /\ POST (retrying (Scenario.flaky (Some "Namaste") (Some [])))
          (Scenario.request "hi" (JArr [])) 0%nat
     = (Responded (mkResponse 200 (AnswerBody (JStr "Namaste"))), 3%nat).
Proof. split; reflexivity. Qed.

(** A context block made of blank texts only is empty. *)
Lemma context_blank (sr : QueryResponse) :
  (forall ms, matches sr = Some ms ->
              List.Forall (fun m => Str.all_ws (match_text m) = true) ms) ->
  context sr = EmptyString.
Proof.
  intros H. unfold context, Str.join.
  destruct (matches sr) as [ms|]; [|reflexivity].
  specialize (H ms eq_refl).
  induction H as [|m l Hm _ IH]; cbn [List.map List.filter]; [reflexivity|].
  rewrite ChatFacts.nonblank_spec, Hm. exact IH.
Qed.

(** The answer is a non-empty string: the text of the service when it is
    usable, the fixed sentence otherwise. *)
Lemma answer_nonempty (r : GenResponse) :
  exists a : string,
    answer r = JStr a /\ a <> EmptyString /\
    (usable r = false -> a = fallback_answer) /\
    (usable r = true -> response_text r = Some a).
Proof.
  unfold answer, usable, Js.or.
  destruct (response_text r) as [t|]; cbn.
  - destruct (String.eqb_spec t EmptyString) as [->|Hne]; cbn.
    + exists fallback_answer. repeat split; try discriminate.
    + exists t. repeat split; auto; discriminate.
  - exists fallback_answer. repeat split; try discriminate.
Qed.

(** C8: when the request has been read, the rewrite prompt built and the
    rewrite call, the embedding and the index query have resolved, and the
    index returned no match, or only matches whose text is empty or white
    space, the answer call is made with the system instruction that ends in
    "No relevant context found."; when that call resolves, the handler
    responds 200 with a non-empty answer, which is the fixed sentence
    whenever the service returned no usable text; when it fails, the
    failure goes to the [catch] clause. *)
Theorem empty_retrieval_still_answers
    {World Embedding Session : Type} (svc : Services World Embedding Session)
    (b q h : JsVal) (formatted : list ChatHistory) (users : list JsVal)
    (rq : GenRequest) (s : Session) (w w1 w2 w3 w4 : World)
    (r1 : GenResponse) (v : Embedding) (sr : QueryResponse) :
  getServerSession svc w = (Ok s, w1) ->
  destructure b = Ok (q, h) ->
  formattedHistory h = Ok formatted ->
  userHistory formatted = Ok users ->
  rewrite_request users q = Ok rq ->
  generateContent svc rq w1 = (Ok r1, w2) ->
  embedQuery svc (enhancedQuestion r1 q) w2 = (Ok v, w3) ->
  pineconeQuery svc 10 v true w3 = (Ok sr, w4) ->
  (forall ms, matches sr = Some ms ->
              List.Forall (fun m => Str.all_ws (match_text m) = true) ms) ->
  config_systemInstruction
    (answer_request (replace_last formatted (enhancedQuestion r1 q)) (context sr))
  = persona ++ "No relevant context found."
  /\ POST svc (Ok b) w
     = match generateContent svc
               (answer_request (replace_last formatted (enhancedQuestion r1 q))
                  (context sr)) w4 with
       | (Ok r2, w5) => (Responded (mkResponse 200 (AnswerBody (answer r2))), w5)
       | (Throw e, w5) => (caught e, w5)
       end
  /\ (forall r2 w5,
        generateContent svc
          (answer_request (replace_last formatted (enhancedQuestion r1 q))
             (context sr)) w4 = (Ok r2, w5) ->
        exists a : string,
          POST svc (Ok b) w
          = (Responded (mkResponse 200 (AnswerBody (JStr a))), w5)
          /\ a <> EmptyString
          /\ (usable r2 = false -> a = fallback_answer)
          /\ (usable r2 = true -> response_text r2 = Some a)).
Proof.
  intros Hs Hb Hf Hu Hr H1 H2 H3 Hblank.
  assert (HP : POST svc (Ok b) w
     = match generateContent svc
               (answer_request (replace_last formatted (enhancedQuestion r1 q))
                  (context sr)) w4 with
       | (Ok r2, w5) => (Responded (mkResponse 200 (AnswerBody (answer r2))), w5)
       | (Throw e, w5) => (caught e, w5)
       end).
  { rewrite (POST_prefix svc (Ok b) s w w1 Hs).
    rewrite (try_block_prefix svc b q h formatted users rq w1 Hb Hf Hu Hr).
    rewrite H1, H2, H3.
    destruct (generateContent svc _ w4) as [[r2|e] w5]; reflexivity. }
  split; [|split].
  - rewrite (context_blank sr Hblank). reflexivity.
  - exact HP.
  - intros r2 w5 H4. rewrite HP, H4.
    destruct (answer_nonempty r2) as (a & Ea & Hne & Hfb & Hus).
    exists a. rewrite Ea. auto.
Qed.

Lemma empty_retrieval_still_answers_witness :
  exists a : string,
    POST (Scenario.steady None (Some [Scenario.snippet "  "]))
         (Scenario.request "What helps with stress?" (JArr [])) []
    = (Responded (mkResponse 200 (AnswerBody (JStr a))),
       [answer_request [user_turn (JStr "What helps with stress?")] EmptyString;
        More.rewrite_of "What helps with stress?"])
    /\ a <> EmptyString
    /\ (usable (mkGenResponse None) = false -> a = fallback_answer)
    /\ (usable (mkGenResponse None) = true ->
        response_text (mkGenResponse None) = Some a).
Proof.
  refine (proj2 (proj2 (empty_retrieval_still_answers
                          (Scenario.steady None (Some [Scenario.snippet "  "]))
                          (JObj [("question", JStr "What helps with stress?");
                                 ("history", JArr [])])
                          (JStr "What helps with stress?") (JArr []) [] []
                          (More.rewrite_of "What helps with stress?")
                          tt [] []
                          [More.rewrite_of "What helps with stress?"]
                          [More.rewrite_of "What helps with stress?"]
                          [More.rewrite_of "What helps with stress?"]
                          (mkGenResponse None) tt
                          (mkQueryResponse (Some [Scenario.snippet "  "]))
                          eq_refl eq_refl eq_refl eq_refl eq_refl eq_refl
                          eq_refl eq_refl _))
            (mkGenResponse None) _ eq_refl).
  intros ms E. injection E as <-. repeat constructor.
Defined.

(** The same request with a question that cannot be converted to a string:
    the template literal of the rewrite prompt throws, no service is
    called and the request is answered 500. *)
Example POST_unprintable_question :
  POST (Scenario.steady None (Some [Scenario.snippet "  "]))
       (Ok (JObj [("question", More.unprintable); ("history", JArr [])])) []
  = (Responded (More.generic_500 "Cannot convert object to primitive value"),
     []).
Proof. reflexivity. Qed.

(** C10: a request whose [history] is missing or [null] is processed as
    the same request with [history: []]: the normalizer yields the empty
    history without throwing, and the handler runs the pipeline on it --
    the rewrite prompt is built from no user text, the rewrite call, the
    embedding, the index query and the answer call follow, the answer call
    receiving the one user turn with the enhanced question -- giving the
    result it gives for [history: []]. *)
Theorem missing_history_is_empty
    {World Embedding Session : Type} (svc : Services World Embedding Session)
    (b b0 q h : JsVal) (s : Session) (w w1 : World) :
  getServerSession svc w = (Ok s, w1) ->
  destructure b = Ok (q, h) ->
  Js.nullish h = true ->
  destructure b0 = Ok (q, JArr []) ->
  formattedHistory h = Ok []
  /\ POST svc (Ok b) w = POST svc (Ok b0) w
  /\ POST svc (Ok b) w
     = match rewrite_request [] q with
       | Throw e => (caught e, w1)
       | Ok rq =>
           match generateContent svc rq w1 with
           | (Throw e, w2) => (caught e, w2)
           | (Ok r1, w2) =>
               match embedQuery svc (enhancedQuestion r1 q) w2 with
               | (Throw e, w3) => (caught e, w3)
               | (Ok v, w3) =>
                   match pineconeQuery svc 10 v true w3 with
                   | (Throw e, w4) => (caught e, w4)
                   | (Ok sr, w4) =>
                       match generateContent svc
                               (answer_request
                                  [user_turn (enhancedQuestion r1 q)]
                                  (context sr)) w4 with
                       | (Throw e, w5) => (caught e, w5)
                       | (Ok r2, w5) =>
                           (Responded
                              (mkResponse 200 (AnswerBody (answer r2))), w5)
                       end
                   end
               end
           end
       end.
Proof.
  intros Hs Hb Hn Hb0.
  assert (Hf : formattedHistory h = Ok []).
  { destruct h; try discriminate; reflexivity. }
  split; [exact Hf|]. split.
  - unfold POST, try_block, bind, lift.
    rewrite Hb, Hb0. cbn [fst snd]. rewrite Hf. reflexivity.
  - rewrite (POST_prefix svc (Ok b) s w w1 Hs).
    destruct (rewrite_request [] q) as [rq|e] eqn:Er.
    + rewrite (try_block_prefix svc b q h [] [] rq w1 Hb Hf eq_refl Er).
      destruct (generateContent svc rq w1) as [[r1|e] w2]; [|reflexivity].
      destruct (embedQuery svc _ w2) as [[v|e] w3]; [|reflexivity].
      destruct (pineconeQuery svc 10 v true w3) as [[sr|e] w4]; [|reflexivity].
      change (replace_last [] (enhancedQuestion r1 q))
        with [user_turn (enhancedQuestion r1 q)].
      destruct (generateContent svc _ w4) as [[r2|e] w5]; reflexivity.
    + rewrite (try_block_prompt_throws svc b q h [] [] e w1 Hb Hf eq_refl Er).
      reflexivity.
Qed.

Lemma missing_history_is_empty_witness :
  (formattedHistory JUndefined = Ok []
   /\ POST (Scenario.steady (Some "Namaste") None)
           (Ok (JObj [("question", JStr "hi")])) []
      = POST (Scenario.steady (Some "Namaste") None)
             (Scenario.request "hi" (JArr [])) []
   /\ POST (Scenario.steady (Some "Namaste") None)
           (Ok (JObj [("question", JStr "hi")])) []
      = (Responded (mkResponse 200 (AnswerBody (JStr "Namaste"))),
         [answer_request [user_turn (JStr "Namaste")] EmptyString;
          More.rewrite_of "hi"]))
  /\ (formattedHistory JNull = Ok []
      /\ POST (Scenario.steady (Some "Namaste") None)
              (Scenario.request "hi" JNull) []
         = POST (Scenario.steady (Some "Namaste") None)
                (Scenario.request "hi" (JArr [])) []
      /\ POST (Scenario.steady (Some "Namaste") None)
              (Scenario.request "hi" JNull) []
         = (Responded (mkResponse 200 (AnswerBody (JStr "Namaste"))),
            [answer_request [user_turn (JStr "Namaste")] EmptyString;
             More.rewrite_of "hi"])).
Proof.
  split.
  - exact (missing_history_is_empty (Scenario.steady (Some "Namaste") None)
             (JObj [("question", JStr "hi")])
             (JObj [("question", JStr "hi"); ("history", JArr [])])
             (JStr "hi") JUndefined tt [] [] eq_refl eq_refl eq_refl eq_refl).
  - exact (missing_history_is_empty (Scenario.steady (Some "Namaste") None)
             (JObj [("question", JStr "hi"); ("history", JNull)])
             (JObj [("question", JStr "hi"); ("history", JArr [])])
             (JStr "hi") JNull tt [] [] eq_refl eq_refl eq_refl eq_refl).
Defined.

(** The handler on a history that holds an entry with a [null] first part:
    the [TypeError] of the normalizer reaches the [catch] clause and the
    request is answered 500, before any service is called. *)
Example POST_null_part :
  POST (Scenario.steady (Some "Namaste") None)
       (Scenario.request "and pitta?"
          (JArr [Scenario.turn "user" "What is vata?"; Scenario.null_part_entry]))
       []
  = (Responded
       (mkResponse 500
          (ErrorBody "Chat service temporarily unavailable"
             "Cannot read properties of null (reading 'text')"
             (Some "TypeError"))),
     []).
Proof. reflexivity. Qed.

(** The first end-to-end scenario of section 8. *)
Example POST_two_snippets :
  fst (POST (Scenario.steady (Some "Try pranayama.")
               (Some [Scenario.snippet "Pranayama calms the mind.";
                      Scenario.snippet "Ashwagandha is an adaptogen."]))
         (Scenario.request "What helps with stress?" (JArr [])) [])
  = Responded (mkResponse 200 (AnswerBody (JStr "Try pranayama."))).
Proof. reflexivity. Qed.

End HandlerFacts.

(** ** Retry helper: the course of a run *)

Module RetryRuns.
Import Retry.

Section Runs.
Context {W T : Type}.
Variable fn : W -> Outcome T * W.

Lemma delays_succ (delayMs : Z) (n : nat) :
  More.delays delayMs (S n) = delayMs :: More.delays (delayMs * 2) n.
Proof.
  unfold More.delays. cbn [List.seq List.map]. f_equal; [cbn; lia|].
  rewrite <- List.seq_shift, List.map_map. apply List.map_ext.
  intros i. rewrite Nat2Z.inj_succ, Z.pow_succ_r by lia. lia.
Qed.

(** While the operation keeps failing with status 503 and attempts remain,
    the loop sleeps and goes on: after [n] such failures it stands at
    attempt [a + n] with the delay doubled [n] times. *)
Lemma loop_skip (maxRetries : Q) (n : nat) :
  forall (k a : nat) (delayMs : Z) (w : W),
    (n < k)%nat ->
    (inject_Z (Z.of_nat (a + n)) <= maxRetries)%Q ->
    More.overloaded_upto fn n w ->
    let r := loop fn (List.map Z.of_nat (List.seq a k)) maxRetries delayMs w in
    let r' := loop fn (List.map Z.of_nat (List.seq (a + n) (k - n))) maxRetries
                (delayMs * 2 ^ Z.of_nat n) (after fn n w) in
    exit r = exit r' /\ world r = world r' /\
    sleeps r = (More.delays delayMs n ++ sleeps r')%list.
Proof.
  induction n as [|n IH]; intros k a delayMs w Hk Ha Hov.
  - cbn zeta. rewrite Nat.add_0_r, Nat.sub_0_r, Z.mul_1_r. auto.
  - destruct k as [|k]; [lia|].
    destruct (Hov 0%nat) as (e & He & Hs); [lia|].
    change (fst (fn w) = Throw e) in He.
    cbn zeta. cbn [List.seq List.map loop].
    destruct (fn w) as [o w'] eqn:Efn. cbn in He. subst o.
    rewrite Hs.
    assert (Hrem : attempts_remain (Z.of_nat a) maxRetries = true).
    { apply RetryFacts.attempts_remain_spec.
      eapply Qlt_le_trans; [|exact Ha]. rewrite <- Zlt_Qlt. lia. }
    rewrite Hrem. cbn [andb exit world sleeps].
    assert (Hov' : More.overloaded_upto fn n w').
    { intros i Hi. destruct (Hov (S i)) as (e' & He' & Hs'); [lia|].
      rewrite RetryFacts.after_succ_r, Efn in He'. eauto. }
    destruct (IH k (S a) (delayMs * 2) w') as (Hx & Hw & Hsl);
      [lia| |exact Hov'|].
    { replace (S a + n)%nat with (a + S n)%nat by lia. exact Ha. }
    rewrite RetryFacts.after_succ_r, Efn. cbn [snd].
    replace (a + S n)%nat with (S a + n)%nat by lia.
    replace (S k - S n)%nat with (k - n)%nat by lia.
    replace (delayMs * 2 ^ Z.of_nat (S n)) with (delayMs * 2 * 2 ^ Z.of_nat n)
      by (rewrite Nat2Z.inj_succ, Z.pow_succ_r by lia; lia).
    rewrite delays_succ, Hx, Hw, Hsl. auto.
Qed.

(** The run when attempt [n + 1] is within the budget and the [n]
    invocations before it were overloaded: what is left is the loop from
    attempt [n + 1] on. *)
Lemma run_skip (maxRetries : Q) (delayMs : Z) (w : W) (n : nat) :
  (inject_Z (Z.of_nat (S n)) <= maxRetries)%Q ->
  More.overloaded_upto fn n w ->
  exists k : nat,
    let r := run fn maxRetries delayMs w in
    let r' := loop fn (List.map Z.of_nat (List.seq (S n) (S k))) maxRetries
                (delayMs * 2 ^ Z.of_nat n) (after fn n w) in
    exit r = exit r' /\ world r = world r' /\
    sleeps r = (More.delays delayMs n ++ sleeps r')%list.
Proof.
  intros Hn Hov.
  pose proof (RetryFacts.floor_below _ _ Hn) as Hfloor.
  exists (Z.to_nat (Qfloor maxRetries) - n - 1)%nat.
  replace (S (Z.to_nat (Qfloor maxRetries) - n - 1))
    with (Z.to_nat (Qfloor maxRetries) - n)%nat by lia.
  apply (loop_skip maxRetries n (Z.to_nat (Qfloor maxRetries)) 1 delayMs w);
    [lia|exact Hn|exact Hov].
Qed.

End Runs.

(** X1: the delays of a run double: the [i]-th delay handed to
    [setTimeout] is [delayMs * 2^i], whatever the operation does. *)
Theorem run_backoff_doubles
    {W T : Type} (fn : W -> Outcome T * W) (maxRetries : Q) (delayMs : Z)
    (w : W) (i : nat) (d : Z) :
  List.nth_error (sleeps (run fn maxRetries delayMs w)) i = Some d ->
  d = delayMs * 2 ^ Z.of_nat i.
Proof. apply RetryFacts.loop_backoff. Qed.

Lemma run_backoff_doubles_witness : 2000 = 1000 * 2 ^ Z.of_nat 1.
Proof.
  apply (run_backoff_doubles Scenario.always_overloaded 3 1000 0%nat 1%nat 2000).
  reflexivity.
Defined.

(** X2: with [maxRetries <= 0] the loop body never runs: the operation is
    not invoked, nothing is slept, and [withRetry] throws "Max retries
    reached without success". *)
Theorem withRetry_without_attempts
    {W T : Type} (fn : W -> Outcome T * W) (maxRetries : Q) (delayMs : Z)
    (w : W) :
  (maxRetries <= 0)%Q ->
  withRetry (counted fn) maxRetries delayMs (w, 0%nat)
  = (Throw (mkError (Some "Max retries reached without success") None "Error"),
     (w, 0%nat))
  /\ sleeps (run fn maxRetries delayMs w) = [].
Proof.
  intros H. unfold withRetry. rewrite !RetryFacts.run_nonpos by exact H.
  split; reflexivity.
Qed.

Lemma withRetry_without_attempts_witness :
  withRetry (counted More.always_fine) 0 1000 (0%nat, 0%nat)
  = (Throw (mkError (Some "Max retries reached without success") None "Error"),
     (0%nat, 0%nat))
  /\ sleeps (run More.always_fine 0 1000 0%nat) = [].
Proof.
  apply (withRetry_without_attempts More.always_fine 0 1000 0%nat).
  discriminate.
Defined.

(** X3: when the first [n] invocations fail with status 503, attempt
    [n + 1] is within the budget ([n + 1 <= maxRetries]) and that
    invocation succeeds, [withRetry] returns its value after exactly
    [n + 1] invocations, having slept [delayMs], [2 delayMs], ...,
    [2^(n-1) delayMs]. *)
Theorem withRetry_first_success
    {W T : Type} (fn : W -> Outcome T * W) (maxRetries : Q) (delayMs : Z)
    (w : W) (n : nat) (v : T) :
  (inject_Z (Z.of_nat (S n)) <= maxRetries)%Q ->
  (forall i, (i < n)%nat ->
     exists e, fst (fn (after fn i w)) = Throw e /\ status_is e 503 = true) ->
  fst (fn (after fn n w)) = Ok v ->
  withRetry fn maxRetries delayMs w = (Ok v, after fn (S n) w)
  /\ sleeps (run fn maxRetries delayMs w)
     = List.map (fun i => delayMs * 2 ^ Z.of_nat i) (List.seq 0 n).
Proof.
  intros Hn Hov Hok.
  destruct (run_skip fn maxRetries delayMs w n Hn Hov) as (k & Hx & Hw & Hs).
  unfold withRetry. rewrite Hx, Hw, Hs.
  cbn [List.seq List.map loop].
  change (after fn (S n) w) with (snd (fn (after fn n w))).
  destruct (fn (after fn n w)) as [o w']. cbn in Hok. subst o.
  cbn. rewrite List.app_nil_r. auto.
Qed.

Lemma withRetry_first_success_witness :
  withRetry Scenario.twice_overloaded (7 # 2) 1000 0%nat = (Ok 42, 3%nat)
  /\ sleeps (run Scenario.twice_overloaded (7 # 2) 1000 0%nat) = [1000; 2000].
Proof.
  apply (withRetry_first_success Scenario.twice_overloaded (7 # 2) 1000 0%nat
           2%nat 42).
  - discriminate.
  - intros i Hi. exists Scenario.overloaded.
    destruct i as [|[|i]]; [split; reflexivity | split; reflexivity | lia].
  - reflexivity.
Defined.

(** X4: when the first [n] invocations fail with status 503, attempt
    [n + 1] is within the budget and that invocation fails either with
    another status or with no attempt left ([maxRetries <= n + 1]),
    [withRetry] rethrows that failure after exactly [n + 1] invocations; in
    particular, for an integer [maxRetries], an operation that stays
    overloaded is invoked [maxRetries] times and its last failure is what
    the caller sees. *)
Theorem withRetry_gives_up
    {W T : Type} (fn : W -> Outcome T * W) (maxRetries : Q) (delayMs : Z)
    (w : W) (n : nat) (e : JsError) :
  (inject_Z (Z.of_nat (S n)) <= maxRetries)%Q ->
  (forall i, (i < n)%nat ->
     exists e', fst (fn (after fn i w)) = Throw e' /\ status_is e' 503 = true) ->
  fst (fn (after fn n w)) = Throw e ->
  status_is e 503 = false \/ (maxRetries <= inject_Z (Z.of_nat (S n)))%Q ->
  withRetry fn maxRetries delayMs w = (Throw e, after fn (S n) w)
  /\ sleeps (run fn maxRetries delayMs w)
     = List.map (fun i => delayMs * 2 ^ Z.of_nat i) (List.seq 0 n).
Proof.
  intros Hn Hov Hfail Hstop.
  destruct (run_skip fn maxRetries delayMs w n Hn Hov) as (k & Hx & Hw & Hs).
  unfold withRetry. rewrite Hx, Hw, Hs.
  cbn [List.seq List.map loop].
  change (after fn (S n) w) with (snd (fn (after fn n w))).
  destruct (fn (after fn n w)) as [o w']. cbn in Hfail. subst o.
  assert (Hno : (status_is e 503
                 && attempts_remain (Z.of_nat (S n)) maxRetries)%bool = false).
  { destruct Hstop as [->|Hlast]; [reflexivity|].
    apply andb_false_iff. right.
    apply RetryFacts.attempts_remain_false, Hlast. }
  rewrite Hno. cbn. rewrite List.app_nil_r. auto.
Qed.

Lemma withRetry_gives_up_witness :
  withRetry Scenario.always_overloaded 3 1000 0%nat
  = (Throw Scenario.overloaded, 3%nat)
  /\ sleeps (run Scenario.always_overloaded 3 1000 0%nat) = [1000; 2000].
Proof.
  apply (withRetry_gives_up Scenario.always_overloaded 3 1000 0%nat 2%nat
           Scenario.overloaded).
  - discriminate.
  - intros i Hi. exists Scenario.overloaded. split; reflexivity.
  - reflexivity.
  - right. discriminate.
Defined.

End RetryRuns.

(** ** History normalizer: what it keeps and what it guarantees *)

Module NormalizerMore.
Import Chat Words.

Lemma filterM_kept {A : Type} (p : A -> Outcome bool) :
  forall l kept, filterM p l = Ok kept ->
                 List.Forall (fun x => p x = Ok true) kept.
Proof.
  induction l as [|x l IH]; cbn; intros kept H.
  - injection H as <-. constructor.
  - destruct (p x) as [b|] eqn:Ex; cbn in H; [|discriminate].
    destruct (filterM p l) as [rest|]; cbn in H; [|discriminate].
    injection H as <-. destruct b; auto.
Qed.

Lemma mapM_Forall2 {A B : Type} (f : A -> Outcome B) :
  forall l l', mapM f l = Ok l' -> List.Forall2 (fun x y => f x = Ok y) l l'.
Proof.
  induction l as [|x l IH]; cbn; intros l' H.
  - injection H as <-. constructor.
  - destruct (f x) as [y|] eqn:Ex; cbn in H; [|discriminate].
    destruct (mapM f l) as [ys|]; cbn in H; [|discriminate].
    injection H as <-. constructor; auto.
Qed.

(** An entry that passes the filter is turned into a turn with a role, one
    part and a non-empty text. *)
Lemma kept_entry_ok (msg : JsVal) (m : ChatHistory) :
  keep_entry msg = Ok true -> to_entry msg = Ok m -> More.turn_ok m.
Proof.
  unfold keep_entry, to_entry, More.turn_ok.
  destruct msg as [| |[|]|n|s|elems|fields]; cbn; try discriminate.
  destruct (Js.truthy (Js.lookup "role" fields)) eqn:Er; cbn; [|discriminate].
  destruct (Js.lookup "parts" fields) as [| | | | |[|p rest]|]; cbn;
    try discriminate.
  destruct (get p "text") as [t|]; cbn; [|discriminate].
  intros Ht Hm. injection Ht as Ht. injection Hm as <-. cbn. eauto.
Qed.

(** X5: on a history list none of whose entries has a role together with a
    [null] first part, the normalizer throws nothing and returns, in their
    order, exactly the entries that have a role and a non-empty first text
    part, each reduced to its role and that first text. *)
Theorem normalizer_keeps_well_formed (raw : list JsVal) :
  List.Forall (fun msg => null_first_part msg = false) raw ->
  formattedHistory (JArr raw)
  = Ok (List.map canonical (List.filter well_formed raw)).
Proof. apply NormalizerFacts.formattedHistory_spec. Qed.

Lemma normalizer_keeps_well_formed_witness :
  formattedHistory
    (JArr [Scenario.turn "user" "What is vata?";
           JNull;
           JObj [("parts", JArr [JObj [("text", JStr "no role")]])];
           JObj [("role", JStr "model"); ("parts", JArr [])];
           JObj [("role", JStr "model");
                 ("parts", JArr [JObj [("text", JStr "Vata is a dosha.")];
                                 JObj [("text", JStr "second part")]])];
           JObj [("role", JStr "user"); ("parts", JArr [JObj [("text", JStr EmptyString)]])]])
  = Ok [mkChat (JStr "user") [mkPart (JStr "What is vata?")];
        mkChat (JStr "model") [mkPart (JStr "Vata is a dosha.")]].
Proof.
  apply (normalizer_keeps_well_formed
           [Scenario.turn "user" "What is vata?";
            JNull;
            JObj [("parts", JArr [JObj [("text", JStr "no role")]])];
            JObj [("role", JStr "model"); ("parts", JArr [])];
            JObj [("role", JStr "model");
                  ("parts", JArr [JObj [("text", JStr "Vata is a dosha.")];
                                  JObj [("text", JStr "second part")]])];
            JObj [("role", JStr "user"); ("parts", JArr [JObj [("text", JStr EmptyString)]])]]).
  repeat constructor.
Defined.

Lemma normalizer_turns_ok (history : JsVal) (formatted : list ChatHistory) :
  formattedHistory history = Ok formatted ->
  List.Forall More.turn_ok formatted.
Proof.
  unfold formattedHistory. intros H.
  destruct (Js.or history (JArr [])) as [| | | | |raw|]; try discriminate.
  destruct (filterM keep_entry raw) as [kept|] eqn:Ek; cbn in H; [|discriminate].
  apply filterM_kept in Ek. apply mapM_Forall2 in H.
  induction H as [|x y kept' formatted' Hxy _ IH]; [constructor|].
  inversion Ek; subst. constructor; [|auto].
  eapply kept_entry_ok; eauto.
Qed.

(** X6: whatever the request holds under [history], every turn the
    normalizer returns has a truthy role and exactly one part, whose text
    is not empty. *)
Theorem normalizer_output_invariant (history : JsVal) (formatted : list ChatHistory) :
  formattedHistory history = Ok formatted ->
  List.Forall More.turn_ok formatted.
Proof. apply normalizer_turns_ok. Qed.

Lemma normalizer_output_invariant_witness :
  List.Forall More.turn_ok
    [mkChat (JStr "user") [mkPart (JStr "What is vata?")]].
Proof.
  apply (normalizer_output_invariant
           (JArr [Scenario.turn "user" "What is vata?"; JNum false "5"])).
  reflexivity.
Defined.

Lemma or_truthy_r (a b : JsVal) :
  Js.truthy b = true -> Js.truthy (Js.or a b) = true.
Proof. unfold Js.or. destruct (Js.truthy a) eqn:E; auto. Qed.

Lemma enhancedQuestion_truthy (r : GenResponse) (q : JsVal) :
  Js.truthy (enhancedQuestion r q) = true.
Proof. apply or_truthy_r. reflexivity. Qed.

Lemma ends_with_user_snoc_inv (formatted : list ChatHistory) :
  ends_with_user formatted = true ->
  exists init m, formatted = (init ++ [m])%list.
Proof.
  destruct formatted as [|x l] using List.rev_ind; [discriminate|eauto].
Qed.

(** X7: the conversation handed to the answer call keeps that shape: every
    turn has a truthy role and one part with a non-empty text, and the last
    one is the user turn with the rewritten question, which is never
    empty. *)
Theorem answer_contents_invariant (history : JsVal) (formatted : list ChatHistory)
    (r : GenResponse) (q : JsVal) (ctx : string) :
  formattedHistory history = Ok formatted ->
  List.Forall More.turn_ok
    (contents (answer_request (replace_last formatted (enhancedQuestion r q)) ctx))
  /\ List.last
       (contents (answer_request (replace_last formatted (enhancedQuestion r q)) ctx))
       (user_turn JUndefined)
     = user_turn (enhancedQuestion r q)
  /\ Js.truthy (enhancedQuestion r q) = true.
Proof.
  intros H. apply normalizer_turns_ok in H.
  cbn [contents answer_request]. unfold replace_last.
  split; [|split; [apply List.last_last | apply enhancedQuestion_truthy]].
  apply List.Forall_app. split.
  - destruct (ends_with_user formatted) eqn:E; [|exact H].
    destruct (ends_with_user_snoc_inv formatted E) as (init & m & ->).
    rewrite List.removelast_last. apply List.Forall_app in H. tauto.
  - constructor; [|constructor]. split; [reflexivity|].
    exists (enhancedQuestion r q). split; [reflexivity|].
    apply enhancedQuestion_truthy.
Qed.

Lemma answer_contents_invariant_witness :
  List.Forall More.turn_ok
    (contents (answer_request
                 (replace_last Scenario.ends_model
                    (enhancedQuestion (mkGenResponse None) (JStr "and pitta?")))
                 EmptyString))
  /\ List.last
       (contents (answer_request
                    (replace_last Scenario.ends_model
                       (enhancedQuestion (mkGenResponse None) (JStr "and pitta?")))
                    EmptyString))
       (user_turn JUndefined)
     = user_turn (enhancedQuestion (mkGenResponse None) (JStr "and pitta?"))
  /\ Js.truthy (enhancedQuestion (mkGenResponse None) (JStr "and pitta?")) = true.
Proof.
  apply (answer_contents_invariant
           (JArr [Scenario.turn "user" "What is vata?";
                  Scenario.turn "model" "Vata is one of the doshas."])).
  reflexivity.
Defined.

End NormalizerMore.

(** ** The route handler: failures and the shape of its responses *)

Module HandlerMore.
Import Chat Words Handler.

Lemma filterM_first_throw {A : Type} (p : A -> Outcome bool) (P : JsError -> Prop)
    (l : list A) :
  (forall x e, p x = Throw e -> P e) ->
  forall e, filterM p l = Throw e -> P e.
Proof.
  intros Hp. induction l as [|x l IH]; cbn; intros e H; [discriminate|].
  destruct (p x) as [b|e'] eqn:Ex; cbn in H.
  - destruct (filterM p l) as [rest|e'']; cbn in H; [discriminate|].
    injection H as <-. auto.
  - injection H as <-. eauto.
Qed.

(** X8: a request that cannot be read is answered before any service other
    than the session lookup is called: a body that fails to parse goes to
    the [catch] clause, which classifies the parse failure once it has
    logged it; a [null] body, a [history] that is truthy but not an array, and a
    history entry with a role and a [null] first part each get status 500
    with the [TypeError] as detail. *)
Theorem unreadable_request_answered_early
    {World Embedding Session : Type} (svc : Services World Embedding Session)
    (s : Session) (w w1 : World) :
  getServerSession svc w = (Ok s, w1) ->
  (forall e,
      POST svc (Throw e) w = (caught e, w1)
      /\ (log_failure e = None ->
          POST svc (Throw e) w = (Responded (classify e), w1)))
  /\ (forall b, Js.nullish b = true ->
        exists msg, POST svc (Ok b) w = (Responded (More.generic_500 msg), w1))
  /\ (forall b q h,
        destructure b = Ok (q, h) -> Js.truthy h = true ->
        (forall raw, h <> JArr raw) ->
        POST svc (Ok b) w
        = (Responded (More.generic_500 "(history || []).filter is not a function"), w1))
  /\ (forall b q raw,
        destructure b = Ok (q, JArr raw) ->
        List.Exists (fun msg => null_first_part msg = true) raw ->
        exists msg, POST svc (Ok b) w = (Responded (More.generic_500 msg), w1)).
Proof.
  intros Hs. unfold POST. rewrite Hs. unfold try_block, bind, lift.
  split; [|split; [|split]].
  - intros e. split; [reflexivity|]. intros He. unfold caught. rewrite He.
    reflexivity.
  - intros [| | | | | |] Hb; try discriminate; cbn; eexists; reflexivity.
  - intros b q h Hb Ht Hna. rewrite Hb. cbn [fst snd].
    unfold formattedHistory, Js.or. rewrite Ht.
    destruct h; try reflexivity. exfalso. eapply Hna. reflexivity.
  - intros b q raw Hb Hbad. rewrite Hb. cbn [fst snd].
    destruct (NormalizerFacts.formattedHistory_throws raw Hbad) as [e He].
    rewrite He.
    assert (HP : exists msg, caught e = Responded (More.generic_500 msg)).
    { unfold formattedHistory in He. cbn [Js.or Js.truthy] in He.
      destruct (filterM keep_entry raw) as [kept|e'] eqn:Ek; cbn in He.
      - exfalso.
        destruct (NormalizerFacts.filterM_throws keep_entry raw) as [e'' He''];
          [|congruence].
        eapply List.Exists_impl; [|exact Hbad].
        apply NormalizerFacts.keep_entry_throws.
      - injection He as <-. revert e' Ek.
        apply (filterM_first_throw keep_entry
                 (fun e => exists msg,
                      caught e = Responded (More.generic_500 msg))).
        intros x e Hx. unfold keep_entry in Hx.
        destruct x as [| |[|]|n|t|elems|fields]; cbn in Hx; try discriminate.
        + destruct n; discriminate.
        + destruct (negb (String.eqb t EmptyString)); discriminate.
        + destruct (Js.truthy (Js.lookup "role" fields)); cbn in Hx;
            [|discriminate].
          destruct (Js.lookup "parts" fields) as [| | | | |[|p rest]|];
            cbn in Hx; try discriminate.
          destruct p; cbn in Hx; try discriminate;
            injection Hx as <-; eexists; reflexivity. }
    destruct HP as [msg ->]. eauto.
Qed.

Lemma unreadable_request_answered_early_witness :
  POST (Scenario.steady (Some "Namaste") None)
       (Scenario.request "hi" (JStr "not an array")) []
  = (Responded (More.generic_500 "(history || []).filter is not a function"), []).
Proof.
  apply (proj1 (proj2 (proj2 (unreadable_request_answered_early
                                (Scenario.steady (Some "Namaste") None)
                                tt [] [] eq_refl)))
           (JObj [("question", JStr "hi"); ("history", JStr "not an array")])
           (JStr "hi") (JStr "not an array")).
  - reflexivity.
  - reflexivity.
  - discriminate.
Defined.

(** X9: the retrieval stage is not retried and not guarded either: once
    the rewrite prompt has been built and the rewrite call has resolved, a
    failure of the embedding call or of the index query goes to the [catch]
    clause in the world the failed call left, and the answer call is not
    made; the failure is classified when the clause can log it, and
    escapes the handler when it cannot. *)
Theorem retrieval_failure_classified
    {World Embedding Session : Type} (svc : Services World Embedding Session)
    (b q h : JsVal) (formatted : list ChatHistory) (users : list JsVal)
    (rq : GenRequest) (s : Session) (w w1 w2 : World) (r1 : GenResponse) :
  getServerSession svc w = (Ok s, w1) ->
  destructure b = Ok (q, h) ->
  formattedHistory h = Ok formatted ->
  userHistory formatted = Ok users ->
  rewrite_request users q = Ok rq ->
  generateContent svc rq w1 = (Ok r1, w2) ->
  (forall e w3,
      embedQuery svc (enhancedQuestion r1 q) w2 = (Throw e, w3) ->
      POST svc (Ok b) w = (caught e, w3)
      /\ (log_failure e = None ->
          POST svc (Ok b) w = (Responded (classify e), w3))
      /\ (forall msg, log_failure e = Some msg ->
          POST svc (Ok b) w = (Rejected (TypeError msg), w3)))
  /\ (forall v w3 e w4,
      embedQuery svc (enhancedQuestion r1 q) w2 = (Ok v, w3) ->
      pineconeQuery svc 10 v true w3 = (Throw e, w4) ->
      POST svc (Ok b) w = (caught e, w4)
      /\ (log_failure e = None ->
          POST svc (Ok b) w = (Responded (classify e), w4))
      /\ (forall msg, log_failure e = Some msg ->
          POST svc (Ok b) w = (Rejected (TypeError msg), w4))).
Proof.
  intros Hs Hb Hf Hu Hr H1.
  rewrite (HandlerFacts.POST_prefix svc (Ok b) s w w1 Hs).
  rewrite (HandlerFacts.try_block_prefix svc b q h formatted users rq w1
             Hb Hf Hu Hr).
  rewrite H1. unfold caught. split.
  - intros e w3 H2. rewrite H2. split; [reflexivity|].
    split; [intros -> | intros msg ->]; reflexivity.
  - intros v w3 e w4 H2 H3. rewrite H2, H3. split; [reflexivity|].
    split; [intros -> | intros msg ->]; reflexivity.
Qed.

Lemma retrieval_failure_classified_witness :
  POST More.embedding_down (Scenario.request "hi" (JArr [])) 0%nat
  = (Responded
       (mkResponse 503
          (ErrorBody "Service temporarily unavailable due to quota limits"
             "Try again later" None)),
     2%nat).
Proof.
  apply (proj1 (proj2 (proj1 (retrieval_failure_classified More.embedding_down
                  (JObj [("question", JStr "hi"); ("history", JArr [])])
                  (JStr "hi") (JArr []) [] [] (More.rewrite_of "hi")
                  tt 0%nat 0%nat 1%nat
                  (mkGenResponse (Some "rewritten"))
                  eq_refl eq_refl eq_refl eq_refl eq_refl eq_refl)
           (mkError (Some "You exceeded your current quota") (Some 429) "ApiError")
           2%nat eq_refl))).
  reflexivity.
Defined.

(** A response built by the [try] block is a 200 with the answer. *)
Lemma try_block_ok
    {World Embedding Session : Type} (svc : Services World Embedding Session)
    (req : Outcome JsVal) (w w' : World) (r : HttpResponse) :
  try_block svc req w = (Ok r, w') ->
  exists r2, r = mkResponse 200 (AnswerBody (answer r2)).
Proof.
  unfold try_block, bind, lift, ret.
  destruct req as [b|]; [|discriminate].
  destruct (destructure b) as [[q h]|]; [|discriminate]. cbn [fst snd].
  destruct (formattedHistory h) as [formatted|]; [|discriminate].
  destruct (userHistory formatted) as [users|]; [|discriminate].
  destruct (rewrite_request users q) as [rq|]; [|discriminate].
  destruct (generateContent svc rq w) as [[r1|] w2]; [|discriminate].
  destruct (embedQuery svc _ w2) as [[v|] w3]; [|discriminate].
  destruct (pineconeQuery svc 10 v true w3) as [[sr|] w4]; [|discriminate].
  destruct (generateContent svc _ w4) as [[r2|] w5]; [|discriminate].
  intros H. injection H as <- _. eauto.
Qed.

(** X10: the handler rejects in two cases only: when the session lookup
    throws, that failure escaping unclassified, and when the [try] block
    throws a failure that the logging of the [catch] clause cannot print.
    In every other case the request is answered, either with status 200
    and a non-empty string [answer], or with an error body of status 500 or
    503 from the [catch] clause. *)
Theorem POST_responds_unless_session_fails
    {World Embedding Session : Type} (svc : Services World Embedding Session)
    (req : Outcome JsVal) (w : World) :
  (forall e w1, getServerSession svc w = (Throw e, w1) ->
                POST svc req w = (Rejected e, w1))
  /\ (forall s w1, getServerSession svc w = (Ok s, w1) ->
        (exists a w2,
            try_block svc req w1 = (Ok (mkResponse 200 (AnswerBody (JStr a))), w2)
            /\ POST svc req w
               = (Responded (mkResponse 200 (AnswerBody (JStr a))), w2)
            /\ a <> EmptyString)
        \/ (exists e w2 err details errorType,
               try_block svc req w1 = (Throw e, w2)
               /\ log_failure e = None
               /\ POST svc req w = (Responded (classify e), w2)
               /\ body (classify e) = ErrorBody err details errorType
               /\ (http_status (classify e) = 500
                   \/ http_status (classify e) = 503))
        \/ (exists e w2 msg,
               try_block svc req w1 = (Throw e, w2)
               /\ log_failure e = Some msg
               /\ POST svc req w = (Rejected (TypeError msg), w2))).
Proof.
  unfold POST. split.
  - intros e w1 ->. reflexivity.
  - intros s w1 ->.
    destruct (try_block svc req w1) as [[r|e] w2] eqn:Et.
    + left.
      destruct (try_block_ok svc req w1 w2 r Et) as [r2 ->].
      destruct (HandlerFacts.answer_nonempty r2) as (a & Ea & Hne & _).
      exists a, w2. rewrite Ea. auto.
    + right. unfold caught. destruct (log_failure e) as [msg|] eqn:El.
      * right. exists e, w2, msg. auto.
      * left.
        assert (Hc : exists err details errorType,
                   body (classify e) = ErrorBody err details errorType
                   /\ (http_status (classify e) = 500
                       \/ http_status (classify e) = 503)).
        { rewrite (ChatFacts.classify_category e).
          destruct (category e); cbn; do 3 eexists; split;
            try reflexivity; auto. }
        destruct Hc as (err & details & errorType & Hbody & Hst).
        exists e, w2, err, details, errorType. auto.
Qed.

Lemma POST_responds_unless_session_fails_witness :
  POST More.session_down (Scenario.request "hi" (JArr [])) 0%nat
  = (Rejected (mkError (Some "session store unreachable") None "Error"), 1%nat)
  /\ (exists a w2,
         try_block (Scenario.steady (Some "Namaste") None)
           (Scenario.request "hi" (JArr [])) []
         = (Ok (mkResponse 200 (AnswerBody (JStr a))), w2)
         /\ POST (Scenario.steady (Some "Namaste") None)
              (Scenario.request "hi" (JArr [])) []
            = (Responded (mkResponse 200 (AnswerBody (JStr a))), w2)
         /\ a <> EmptyString).
Proof.
  split.
  - apply (proj1 (POST_responds_unless_session_fails More.session_down
                    (Scenario.request "hi" (JArr [])) 0%nat)).
    reflexivity.
  - destruct (proj2 (POST_responds_unless_session_fails
                       (Scenario.steady (Some "Namaste") None)
                       (Scenario.request "hi" (JArr [])) []) tt [] eq_refl)
      as [H | [H | H]].
    + exact H.
    + destruct H as (e & w2 & err & details & errorType & Ht & _).
      cbv in Ht. discriminate Ht.
    + destruct H as (e & w2 & msg & Ht & _).
      cbv in Ht. discriminate Ht.
Defined.

(** The three ways the handler ends once the session lookup has resolved,
    at three services: an answer, a classified failure, and a failure that
    cannot be logged and escapes. *)
Example POST_three_ends :
  POST (Scenario.steady (Some "Namaste") None)
       (Scenario.request "hi" (JArr [])) []
  = (Responded (mkResponse 200 (AnswerBody (JStr "Namaste"))),
     [answer_request [user_turn (JStr "Namaste")] EmptyString;
      More.rewrite_of "hi"])
  /\ POST More.embedding_down (Scenario.request "hi" (JArr [])) 0%nat
     = (Responded
          (mkResponse 503
             (ErrorBody "Service temporarily unavailable due to quota limits"
                "Try again later" None)),
        2%nat)
  /\ POST More.generation_circular (Scenario.request "hi" (JArr [])) 0%nat
     = (Rejected (TypeError "Converting circular structure to JSON"), 1%nat).
Proof. repeat split. Qed.

End HandlerMore.

(** ** Context block and classifier, in terms of substrings *)

Module TextFacts.
Import Chat Words.

Lemma prefix_spec (a s : string) :
  String.prefix a s = true <-> exists post, s = a ++ post.
Proof.
  revert s. induction a as [|c a IH]; intros s; cbn.
  - split; [intros _; exists s; reflexivity | destruct s; reflexivity].
  - destruct s as [|c' s]; [split; [discriminate | intros [post H]; discriminate]|].
    cbn. destruct (ascii_dec c c') as [->|Hne].
    + rewrite IH. split; intros [post H]; exists post.
      * now subst.
      * now injection H.
    + split; [discriminate|]. intros [post H]. injection H as H1 H2.
      congruence.
Qed.

Lemma includes_unfold (s sub : string) :
  Str.includes s sub
  = if String.prefix sub s then true
    else match s with
         | EmptyString => false
         | String _ rest => Str.includes rest sub
         end.
Proof. destruct s; reflexivity. Qed.

(** [includes] decides occurrence as a substring. *)
Lemma includes_spec (s sub : string) :
  Str.includes s sub = true <-> More.substring sub s.
Proof.
  unfold More.substring. split.
  - induction s as [|c s IH]; rewrite includes_unfold;
      destruct (String.prefix sub _) eqn:Ep;
      try (intros _; apply prefix_spec in Ep as [post ->];
           exists EmptyString, post; reflexivity).
    + discriminate.
    + intros H. destruct (IH H) as (pre & post & ->).
      exists (String c pre), post. reflexivity.
  - intros (pre & post & ->). induction pre as [|c pre IH];
      rewrite includes_unfold.
    + assert (Hp : String.prefix sub (EmptyString ++ sub ++ post) = true)
        by (apply prefix_spec; exists post; reflexivity).
      rewrite Hp. reflexivity.
    + destruct (String.prefix sub _); [reflexivity|]. exact IH.
Qed.

Lemma substring_empty (x : string) :
  More.substring x EmptyString -> x = EmptyString.
Proof.
  intros (pre & post & H). destruct pre; [|discriminate].
  destruct x; [reflexivity|discriminate].
Qed.

(** Every element of a joined list occurs in the result. *)
Lemma concat_substring (sep x : string) (l : list string) :
  List.In x l -> More.substring x (String.concat sep l).
Proof.
  unfold More.substring.
  induction l as [|y l IH]; [contradiction|].
  intros [->|Hin].
  - exists EmptyString. destruct l; cbn.
    + exists EmptyString. now rewrite StrFacts.append_nil_r.
    + eexists. reflexivity.
  - destruct (IH Hin) as (pre & post & E).
    destruct l as [|z l]; [contradiction|].
    exists (y ++ sep ++ pre), post.
    change (String.concat sep (y :: z :: l))
      with (y ++ sep ++ String.concat sep (z :: l)).
    rewrite E, !StrFacts.append_assoc. reflexivity.
Qed.

Lemma all_ws_empty_false (t : string) :
  Str.all_ws t = false -> t <> EmptyString.
Proof. intros H ->. discriminate. Qed.

(** X11: the context block is empty exactly when no match carries a text
    that is more than white space; and the text of every other match occurs
    in the block, which the system instruction then embeds after the
    persona in place of "No relevant context found.". *)
Theorem context_reaches_instruction (sr : QueryResponse) (ms : list ScoredRecord) :
  matches sr = Some ms ->
  (context sr = EmptyString
   <-> List.Forall (fun m => Str.all_ws (match_text m) = true) ms)
  /\ (forall m,
        List.In m ms -> Str.all_ws (match_text m) = false ->
        More.substring (match_text m) (context sr)
        /\ systemInstruction (context sr) = persona ++ context sr).
Proof.
  intros Hms.
  assert (Hsub : forall m, List.In m ms -> Str.all_ws (match_text m) = false ->
                           More.substring (match_text m) (context sr)).
  { intros m Hin Hnb. unfold context, Str.join. rewrite Hms.
    apply concat_substring. apply List.filter_In. split.
    - apply List.in_map, Hin.
    - rewrite ChatFacts.nonblank_spec, Hnb. reflexivity. }
  split; [split|].
  - intros Hempty. apply List.Forall_forall. intros m Hin.
    destruct (Str.all_ws (match_text m)) eqn:Hnb; [reflexivity|].
    pose proof (Hsub m Hin Hnb) as Hs. rewrite Hempty in Hs.
    apply substring_empty in Hs. rewrite Hs in Hnb. discriminate.
  - intros Hall. apply HandlerFacts.context_blank.
    intros ms' E. rewrite Hms in E. injection E as <-. exact Hall.
  - intros m Hin Hnb. split; [auto|].
    unfold systemInstruction, context_or_placeholder.
    destruct (String.eqb_spec (context sr) EmptyString) as [E|_]; [|reflexivity].
    pose proof (Hsub m Hin Hnb) as Hs. rewrite E in Hs.
    apply substring_empty in Hs. rewrite Hs in Hnb. discriminate.
Qed.

Lemma context_reaches_instruction_witness :
  More.substring "B" (context (mkQueryResponse (Some Scenario.four_matches)))
  /\ systemInstruction (context (mkQueryResponse (Some Scenario.four_matches)))
     = persona ++ context (mkQueryResponse (Some Scenario.four_matches)).
Proof.
  apply (proj2 (context_reaches_instruction
                  (mkQueryResponse (Some Scenario.four_matches))
                  Scenario.four_matches eq_refl)
           (Scenario.snippet "B")).
  - cbn. auto.
  - reflexivity.
Defined.

(** A single match whose text is U+00A0 leaves the context empty, and the
    instruction ends with the placeholder. *)
Example context_no_break_space :
  context (mkQueryResponse
             (Some [Scenario.snippet
                      (String (ascii_of_nat 194)
                         (String (ascii_of_nat 160) EmptyString))]))
  = EmptyString
  /\ systemInstruction
       (context (mkQueryResponse
                   (Some [Scenario.snippet
                            (String (ascii_of_nat 194)
                               (String (ascii_of_nat 160) EmptyString))])))
     = persona ++ "No relevant context found.".
Proof. split; reflexivity. Qed.

Lemma status_is_spec (e : JsError) (code : Z) :
  status_is e code = true <-> status e = Some code.
Proof.
  unfold status_is. destruct (status e) as [s|].
  - rewrite Z.eqb_eq. split; [now intros -> | now intros [= ->]].
  - split; discriminate.
Qed.

Lemma message_includes_spec (e : JsError) (needle : string) :
  message_includes e needle = true
  <-> exists m, message e = Some m /\ More.substring needle m.
Proof.
  unfold message_includes. destruct (message e) as [m|].
  - rewrite includes_spec. split.
    + eauto.
    + intros (m' & [= <-] & H). exact H.
  - split; [discriminate | intros (m & H & _); discriminate].
Qed.

(** X12: the handler answers a failure with status 503 exactly when the
    failure's message contains "quota" or its status is 429, and neither
    its message contains "API key" nor its status is 403; every other
    failure is answered with status 500. *)
Theorem classify_503_iff (e : JsError) :
  (http_status (classify e) = 503
   <-> ((exists m, message e = Some m /\ More.substring "quota" m)
        \/ status e = Some 429)
       /\ ~ ((exists m, message e = Some m /\ More.substring "API key" m)
             \/ status e = Some 403))
  /\ (http_status (classify e) = 503 \/ http_status (classify e) = 500).
Proof.
  assert (Hk : is_configuration e = true
               <-> (exists m, message e = Some m /\ More.substring "API key" m)
                   \/ status e = Some 403).
  { unfold is_configuration.
    rewrite orb_true_iff, message_includes_spec, status_is_spec. reflexivity. }
  assert (Hq : is_capacity e = true
               <-> (exists m, message e = Some m /\ More.substring "quota" m)
                   \/ status e = Some 429).
  { unfold is_capacity.
    rewrite orb_true_iff, message_includes_spec, status_is_spec. reflexivity. }
  rewrite <- Hk, <- Hq. rewrite ChatFacts.classify_category. unfold category.
  destruct (is_configuration e), (is_capacity e); cbn; split;
    try (split; [discriminate | intros [? Hn]; try discriminate;
                                exfalso; apply Hn; reflexivity]);
    try (split; [intros _; split; [reflexivity | discriminate] | reflexivity]);
    auto.
Qed.

Lemma classify_503_iff_witness :
  http_status (classify Scenario.rate_limited) = 503.
Proof.
  apply (proj1 (classify_503_iff Scenario.rate_limited)). split.
  - right. reflexivity.
  - intros [(m & [= <-] & Hsub)|H]; [|discriminate].
    apply includes_spec in Hsub. discriminate.
Defined.

End TextFacts.

(** ** The chat page *)

Module PageFacts.
Import Page.

(** *** Characters kept and dropped by the scanners *)

Lemma occurs_append (c : ascii) (a b : string) :
  More.occurs c (a ++ b) = (More.occurs c a || More.occurs c b)%bool.
Proof.
  induction a as [|x a IH]; cbn; [reflexivity|].
  rewrite IH. apply orb_assoc.
Qed.

Lemma suffix_occurs (c : ascii) (pre s : string) :
  More.occurs c s = true -> More.occurs c (pre ++ s) = true.
Proof. intros H. rewrite occurs_append, H. apply orb_true_r. Qed.

Lemma prefix_occurs (c : ascii) (s post : string) :
  More.occurs c s = true -> More.occurs c (s ++ post) = true.
Proof. intros H. rewrite occurs_append, H. reflexivity. Qed.

Lemma drop_ws_occurs (c : ascii) (s r : string) :
  Str.drop_ws s = Some r -> More.occurs c r = true -> More.occurs c s = true.
Proof.
  intros E H. destruct (StrFacts.drop_ws_split s r E) as (pre & -> & _).
  apply suffix_occurs, H.
Qed.

Lemma trimStart_occurs (c : ascii) (s : string) :
  More.occurs c (Str.trimStart s) = true -> More.occurs c s = true.
Proof.
  intros H. destruct (StrFacts.trimStart_suffix s) as (pre & E).
  rewrite E. apply suffix_occurs, H.
Qed.

Lemma trimEnd_occurs (c : ascii) (s : string) :
  More.occurs c (Str.trimEnd s) = true -> More.occurs c s = true.
Proof.
  intros H. destruct (StrFacts.trimEnd_split s) as (post & E & _).
  rewrite E. apply prefix_occurs, H.
Qed.

Lemma trim_occurs (c : ascii) (s : string) :
  More.occurs c (Str.trim s) = true -> More.occurs c s = true.
Proof.
  unfold Str.trim. intros H. apply trimStart_occurs, trimEnd_occurs, H.
Qed.

(** One step of [strip_headings], the white-space character after a run
    of [#] being the one [Str.drop_ws] recognises. *)
Lemma strip_headings_unfold (after_hash : bool) (s : string) :
  strip_headings after_hash s
  = match s with
    | EmptyString => EmptyString
    | String c rest =>
        if Ascii.eqb c "#" then strip_headings true rest
        else if after_hash
             then match Str.drop_ws s with
                  | Some r => strip_headings false r
                  | None => String c (strip_headings false rest)
                  end
             else String c (strip_headings false rest)
    end.
Proof.
  destruct s as [|c rest]; [reflexivity|].
  cbn [strip_headings Str.drop_ws].
  destruct (Ascii.eqb c "#"); [reflexivity|].
  destruct after_hash; [|reflexivity].
  destruct (Str.is_ws c); [reflexivity|].
  destruct rest as [|d rest2]; [reflexivity|].
  destruct (Str.is_ws2 c d); [reflexivity|].
  destruct rest2 as [|e rest3]; [reflexivity|].
  destruct (Str.is_ws3 c d e); reflexivity.
Qed.

Lemma strip_headings_no_hash (after_hash : bool) (s : string) :
  More.occurs "#" (strip_headings after_hash s) = false.
Proof.
  revert after_hash.
  induction s as [s IH] using StrFacts.string_length_ind. intros b.
  rewrite strip_headings_unfold. destruct s as [|c rest]; [reflexivity|].
  assert (Hrest : forall b', More.occurs "#" (strip_headings b' rest) = false)
    by (intros b'; apply IH; cbn; lia).
  destruct (Ascii.eqb c "#") eqn:Ec; [apply Hrest|].
  assert (Hkeep : More.occurs "#" (String c (strip_headings false rest)) = false)
    by (cbn [More.occurs]; rewrite Ascii.eqb_sym, Ec; apply Hrest).
  destruct b; [|exact Hkeep].
  destruct (Str.drop_ws (String c rest)) as [r|] eqn:E; [|exact Hkeep].
  apply IH, (StrFacts.drop_ws_shorter _ _ E).
Qed.

(** [strip_bold] on a string and on the same string behind one more
    character. *)
Lemma strip_bold_occurs_both (c : ascii) (s : string) :
  (More.occurs c (strip_bold s) = true -> More.occurs c s = true)
  /\ (forall x, More.occurs c (strip_bold (String x s)) = true ->
                More.occurs c (String x s) = true).
Proof.
  induction s as [|y s [IH1 IH2]].
  - split; [auto|]. intros x. cbn. auto.
  - split; [apply IH2|]. intros x.
    change (strip_bold (String x (String y s)))
      with (if (Ascii.eqb x "*" && Ascii.eqb y "*")%bool then strip_bold s
            else String x (strip_bold (String y s))).
    destruct (Ascii.eqb x "*" && Ascii.eqb y "*")%bool.
    + intros H. cbn [More.occurs]. rewrite (IH1 H), !orb_true_r. reflexivity.
    + cbn [More.occurs]. intros H. apply orb_true_iff in H as [H|H].
      * rewrite H. reflexivity.
      * apply IH2 in H. cbn [More.occurs] in H. rewrite H. apply orb_true_r.
Qed.

Lemma strip_bold_occurs (c : ascii) (s : string) :
  More.occurs c (strip_bold s) = true -> More.occurs c s = true.
Proof. apply strip_bold_occurs_both. Qed.

Lemma match_bullet_occurs (c : ascii) (s after : string) (starts : bool) :
  match_bullet s = Some (after, starts) ->
  More.occurs c after = true -> More.occurs c s = true.
Proof.
  unfold match_bullet. destruct (Str.trimStart s) as [|x rest] eqn:E; [discriminate|].
  destruct (is_bullet x); [|discriminate].
  intros [= <- _] H. apply trimStart_occurs. rewrite E. cbn [More.occurs].
  rewrite (trimStart_occurs c rest H). apply orb_true_r.
Qed.

(** One step of [strip_bullets_from] where no bullet is matched: what is
    kept, what is left to scan, and whether a line starts there. *)
Lemma strip_bullets_from_keep (fuel : nat) (c : ascii) (rest : string) :
  exists kept left starts,
    match rest with
    | String d (String e rest3) =>
        if is_line_terminator3 c d e
        then String c (String d (String e (strip_bullets_from fuel true rest3)))
        else String c (strip_bullets_from fuel (is_line_terminator c) rest)
    | _ => String c (strip_bullets_from fuel (is_line_terminator c) rest)
    end
    = kept ++ strip_bullets_from fuel starts left
    /\ String c rest = kept ++ left
    /\ (0 < String.length kept)%nat.
Proof.
  destruct rest as [|d [|e rest3]].
  - exists (String c EmptyString), EmptyString, (is_line_terminator c).
    cbn. repeat split. lia.
  - exists (String c EmptyString), (String d EmptyString), (is_line_terminator c).
    cbn [append String.length]. repeat split. lia.
  - destruct (is_line_terminator3 c d e).
    + exists (String c (String d (String e EmptyString))), rest3, true.
      cbn [append String.length]. repeat split. lia.
    + exists (String c EmptyString), (String d (String e rest3)),
        (is_line_terminator c).
      cbn [append String.length]. repeat split. lia.
Qed.

(** The two ways a step of [strip_bullets_from] goes on a non-empty
    string: a bullet is matched and dropped, or a non-empty prefix is
    kept. *)
Lemma strip_bullets_from_step (fuel : nat) (line_start : bool) (c : ascii)
    (rest : string) :
  (exists after starts,
      line_start = true
      /\ match_bullet (String c rest) = Some (after, starts)
      /\ strip_bullets_from (S fuel) line_start (String c rest)
         = strip_bullets_from fuel starts after)
  \/ (exists kept left starts,
         (line_start = true -> match_bullet (String c rest) = None)
         /\ strip_bullets_from (S fuel) line_start (String c rest)
            = kept ++ strip_bullets_from fuel starts left
         /\ String c rest = kept ++ left
         /\ (0 < String.length kept)%nat).
Proof.
  cbn [strip_bullets_from].
  destruct (if line_start then match_bullet (String c rest) else None)
    as [[after starts]|] eqn:Em.
  - left. destruct line_start; [|discriminate]. exists after, starts. auto.
  - right.
    destruct (strip_bullets_from_keep fuel c rest)
      as (kept & left & starts & E & Hs & Hk).
    exists kept, left, starts. split; [|auto].
    intros ->. exact Em.
Qed.

Lemma strip_bullets_from_occurs (c : ascii) (fuel : nat) :
  forall (line_start : bool) (s : string),
    More.occurs c (strip_bullets_from fuel line_start s) = true ->
    More.occurs c s = true.
Proof.
  induction fuel as [|fuel IH]; intros b s; [cbn; auto|].
  destruct s as [|x rest]; [cbn; auto|].
  destruct (strip_bullets_from_step fuel b x rest)
    as [(after & starts & _ & Em & ->)
       |(kept & left & starts & _ & -> & -> & _)].
  - intros H. apply IH in H. eapply match_bullet_occurs; eauto.
  - rewrite !occurs_append. intros H. apply orb_true_iff in H as [H|H].
    + rewrite H. reflexivity.
    + rewrite (IH _ _ H). apply orb_true_r.
Qed.

(** *** Strings the scanners leave alone *)

Lemma strip_headings_plain (s : string) :
  More.occurs "#" s = false -> strip_headings false s = s.
Proof.
  induction s as [|c s IH]; [reflexivity|].
  rewrite strip_headings_unfold. cbn [More.occurs].
  intros H. apply orb_false_iff in H as [Hc Hs].
  rewrite Ascii.eqb_sym, Hc, (IH Hs). reflexivity.
Qed.

Lemma strip_bold_plain_both (s : string) :
  (More.occurs "*" s = false -> strip_bold s = s)
  /\ (forall x, More.occurs "*" (String x s) = false ->
                strip_bold (String x s) = String x s).
Proof.
  induction s as [|y s [IH1 IH2]].
  - split; [reflexivity|]. intros x _. reflexivity.
  - split; [apply IH2|]. intros x H.
    change (strip_bold (String x (String y s)))
      with (if (Ascii.eqb x "*" && Ascii.eqb y "*")%bool then strip_bold s
            else String x (strip_bold (String y s))).
    cbn [More.occurs] in H. apply orb_false_iff in H as [Hx Hy].
    rewrite Ascii.eqb_sym, Hx. cbn [andb]. rewrite (IH2 y Hy). reflexivity.
Qed.

Lemma trimStart_head_occurs (s rest : string) (x : ascii) :
  Str.trimStart s = String x rest -> More.occurs x s = true.
Proof.
  intros E. apply trimStart_occurs. rewrite E. cbn.
  rewrite Ascii.eqb_refl. reflexivity.
Qed.

Lemma match_bullet_plain (s : string) :
  More.occurs "-" s = false -> More.occurs "*" s = false ->
  match_bullet s = None.
Proof.
  intros Hd Ha. unfold match_bullet.
  destruct (Str.trimStart s) as [|x rest] eqn:E; [reflexivity|].
  apply trimStart_head_occurs in E. unfold is_bullet.
  destruct (Ascii.eqb_spec x "-") as [->|_]; [congruence|].
  destruct (Ascii.eqb_spec x "*") as [->|_]; [congruence|].
  reflexivity.
Qed.

Lemma strip_bullets_from_plain (fuel : nat) :
  forall (line_start : bool) (s : string),
    More.occurs "-" s = false -> More.occurs "*" s = false ->
    strip_bullets_from fuel line_start s = s.
Proof.
  induction fuel as [|fuel IH]; intros b s Hd Ha; [reflexivity|].
  destruct s as [|x rest]; [reflexivity|].
  destruct (strip_bullets_from_step fuel b x rest)
    as [(after & starts & _ & Em & _)
       |(kept & left & starts & _ & -> & E & _)].
  - rewrite (match_bullet_plain _ Hd Ha) in Em. discriminate.
  - rewrite E in Hd, Ha. rewrite occurs_append in Hd, Ha.
    apply orb_false_iff in Hd as [_ Hd]. apply orb_false_iff in Ha as [_ Ha].
    rewrite (IH _ left Hd Ha). symmetry. exact E.
Qed.

(** *** The fuel of [strip_bullets] *)

Lemma trimStart_length (s : string) :
  (String.length (Str.trimStart s) <= String.length s)%nat.
Proof.
  destruct (StrFacts.trimStart_suffix s) as (pre & E).
  rewrite E at 2. rewrite StrFacts.length_append. lia.
Qed.

Lemma match_bullet_shorter (s after : string) (starts : bool) :
  match_bullet s = Some (after, starts) ->
  (String.length after < String.length s)%nat.
Proof.
  unfold match_bullet. destruct (Str.trimStart s) as [|x rest] eqn:E; [discriminate|].
  destruct (is_bullet x); [|discriminate]. intros [= <- _].
  pose proof (trimStart_length s) as H1. rewrite E in H1. cbn in H1.
  pose proof (trimStart_length rest). lia.
Qed.

(** Any fuel from the length of the string on gives the same result: the
    scan of [strip_bullets] runs to the end of its input. *)
Lemma strip_bullets_fuel (f1 : nat) :
  forall (f2 : nat) (line_start : bool) (s : string),
    (String.length s <= f1)%nat -> (String.length s <= f2)%nat ->
    strip_bullets_from f1 line_start s = strip_bullets_from f2 line_start s.
Proof.
  induction f1 as [|f1 IH]; intros f2 b s H1 H2.
  - destruct s; [|cbn in H1; lia]. destruct f2; reflexivity.
  - destruct s as [|x rest]; [destruct f2; reflexivity|].
    destruct f2 as [|f2]; [cbn in H2; lia|].
    cbn [strip_bullets_from]. cbn [String.length] in H1, H2.
    destruct (if b then match_bullet (String x rest) else None)
      as [[after starts]|] eqn:Em.
    + destruct b; [|discriminate]. apply match_bullet_shorter in Em.
      cbn [String.length] in Em. apply IH; lia.
    + destruct rest as [|d [|e rest3]].
      * f_equal. apply IH; cbn; lia.
      * f_equal. apply IH; cbn in *; lia.
      * cbn [String.length] in H1, H2.
        destruct (is_line_terminator3 x d e).
        -- do 3 f_equal. apply IH; lia.
        -- f_equal. apply IH; cbn [String.length]; lia.
Qed.

(** X13: the text [cleanBotText] returns holds no [#] at all. *)
Theorem cleanBotText_no_hash (t : string) :
  More.occurs "#" (cleanBotText t) = false.
Proof.
  unfold cleanBotText, strip_bullets.
  destruct (More.occurs "#" (Str.trim _)) eqn:H; [|reflexivity].
  apply trim_occurs, strip_bullets_from_occurs, strip_bold_occurs in H.
  rewrite strip_headings_no_hash in H. discriminate.
Qed.

(** X14: a text without [#], [*] and [-] is only trimmed. *)
Theorem cleanBotText_plain (t : string) :
  More.occurs "#" t = false ->
  More.occurs "*" t = false ->
  More.occurs "-" t = false ->
  cleanBotText t = Str.trim t.
Proof.
  intros Hh Ha Hd. unfold cleanBotText, strip_bullets.
  rewrite (strip_headings_plain t Hh).
  rewrite (proj1 (strip_bold_plain_both t) Ha).
  rewrite (strip_bullets_from_plain _ true t Hd Ha). reflexivity.
Qed.

Lemma cleanBotText_plain_witness :
  cleanBotText ("  Vata governs movement." ++ Str.nl) = "Vata governs movement.".
Proof.
  apply (cleanBotText_plain ("  Vata governs movement." ++ Str.nl));
    reflexivity.
Defined.

(** X15: the text [cleanBotText] returns neither starts nor ends with
    white space: trimming it again changes nothing. *)
Theorem cleanBotText_trimmed (t : string) :
  Str.trim (cleanBotText t) = cleanBotText t
  /\ Str.trimStart (cleanBotText t) = cleanBotText t
  /\ Str.trimEnd (cleanBotText t) = cleanBotText t.
Proof.
  unfold cleanBotText. set (u := strip_bullets _).
  split; [apply StrFacts.trim_idempotent|]. split.
  - apply StrFacts.trimStart_trim.
  - unfold Str.trim. apply StrFacts.trimEnd_idempotent.
Qed.

Lemma strip_headings_occurs (c : ascii) (after_hash : bool) (s : string) :
  More.occurs c (strip_headings after_hash s) = true -> More.occurs c s = true.
Proof.
  revert after_hash.
  induction s as [s IH] using StrFacts.string_length_ind. intros b.
  rewrite strip_headings_unfold. destruct s as [|x rest]; [auto|].
  assert (Hrest : forall b', More.occurs c (strip_headings b' rest) = true ->
                             More.occurs c (String x rest) = true).
  { intros b' H. cbn [More.occurs]. rewrite (IH rest) with (after_hash := b');
      [apply orb_true_r | cbn; lia | exact H]. }
  assert (Hkeep : More.occurs c (String x (strip_headings false rest)) = true ->
                  More.occurs c (String x rest) = true).
  { cbn [More.occurs]. intros H. apply orb_true_iff in H as [H|H].
    - rewrite H. reflexivity.
    - apply Hrest in H. exact H. }
  destruct (Ascii.eqb x "#"); [apply Hrest|].
  destruct b; [|exact Hkeep].
  destruct (Str.drop_ws (String x rest)) as [r|] eqn:E; [|exact Hkeep].
  intros H. apply (drop_ws_occurs c _ r E).
  apply (IH r (StrFacts.drop_ws_shorter _ _ E) false H).
Qed.

Lemma strip_headings_length (after_hash : bool) (s : string) :
  (String.length (strip_headings after_hash s) <= String.length s)%nat.
Proof.
  revert after_hash.
  induction s as [s IH] using StrFacts.string_length_ind. intros b.
  rewrite strip_headings_unfold. destruct s as [|x rest]; [cbn; lia|].
  assert (Hrest : forall b',
             (String.length (strip_headings b' rest) <= String.length rest)%nat)
    by (intros b'; apply IH; cbn; lia).
  cbn [String.length].
  destruct (Ascii.eqb x "#"); [specialize (Hrest true); lia|].
  assert (Hkeep : (String.length (String x (strip_headings false rest))
                   <= S (String.length rest))%nat)
    by (cbn [String.length]; specialize (Hrest false); lia).
  destruct b; [|exact Hkeep].
  destruct (Str.drop_ws (String x rest)) as [r|] eqn:E; [|exact Hkeep].
  pose proof (StrFacts.drop_ws_shorter _ _ E) as Hr.
  pose proof (IH r Hr false). cbn [String.length] in Hr. lia.
Qed.

Lemma strip_bold_length_both (s : string) :
  (String.length (strip_bold s) <= String.length s)%nat
  /\ (forall x, String.length (strip_bold (String x s))
                <= String.length (String x s))%nat.
Proof.
  induction s as [|y s [IH1 IH2]].
  - split; [cbn; lia|]. intros x. cbn. lia.
  - split; [apply IH2|]. intros x.
    change (strip_bold (String x (String y s)))
      with (if (Ascii.eqb x "*" && Ascii.eqb y "*")%bool then strip_bold s
            else String x (strip_bold (String y s))).
    destruct (Ascii.eqb x "*" && Ascii.eqb y "*")%bool.
    + cbn [String.length]. lia.
    + cbn [String.length]. specialize (IH2 y). cbn [String.length] in IH2. lia.
Qed.

Lemma strip_bullets_from_length (fuel : nat) :
  forall (line_start : bool) (s : string),
    (String.length (strip_bullets_from fuel line_start s) <= String.length s)%nat.
Proof.
  induction fuel as [|fuel IH]; intros b s; [cbn; lia|].
  destruct s as [|x rest]; [cbn; lia|].
  destruct (strip_bullets_from_step fuel b x rest)
    as [(after & starts & _ & Em & ->)
       |(kept & left & starts & _ & -> & -> & _)].
  - apply match_bullet_shorter in Em. specialize (IH starts after). lia.
  - rewrite !StrFacts.length_append. specialize (IH starts left). lia.
Qed.

Lemma trimEnd_length (s : string) :
  (String.length (Str.trimEnd s) <= String.length s)%nat.
Proof.
  destruct (StrFacts.trimEnd_split s) as (post & E & _).
  rewrite E at 2. rewrite StrFacts.length_append. lia.
Qed.

(** X21: [cleanBotText] only deletes: every character of its result
    occurs in the text it was given, and the result is no longer than that
    text. *)
Theorem cleanBotText_only_deletes (t : string) :
  (forall c, More.occurs c (cleanBotText t) = true -> More.occurs c t = true)
  /\ (String.length (cleanBotText t) <= String.length t)%nat.
Proof.
  unfold cleanBotText, strip_bullets, Str.trim. split.
  - intros c H.
    apply trimEnd_occurs, trimStart_occurs, strip_bullets_from_occurs,
      strip_bold_occurs, strip_headings_occurs in H.
    exact H.
  - pose proof (trimEnd_length
                  (Str.trimStart
                     (strip_bullets_from
                        (String.length (strip_bold (strip_headings false t)))
                        true (strip_bold (strip_headings false t))))) as H1.
    pose proof (trimStart_length
                  (strip_bullets_from
                     (String.length (strip_bold (strip_headings false t)))
                     true (strip_bold (strip_headings false t)))) as H2.
    pose proof (strip_bullets_from_length
                  (String.length (strip_bold (strip_headings false t)))
                  true (strip_bold (strip_headings false t))) as H3.
    pose proof (proj1 (strip_bold_length_both (strip_headings false t))) as H4.
    pose proof (strip_headings_length false t) as H5.
    lia.
Qed.

Lemma cleanBotText_only_deletes_witness :
  More.occurs "T" ("## Title" ++ Str.nl ++ "- **bold** item") = true.
Proof.
  apply (proj1 (cleanBotText_only_deletes
                  ("## Title" ++ Str.nl ++ "- **bold** item")) "T"%char).
  reflexivity.
Defined.

(** A text of plain words between U+00A0 and U+2003 loses both. *)
Example cleanBotText_no_break_space :
  cleanBotText (String (ascii_of_nat 194) (String (ascii_of_nat 160) "Vata")
                ++ String (ascii_of_nat 226)
                     (String (ascii_of_nat 128)
                        (String (ascii_of_nat 131) EmptyString)))
  = "Vata".
Proof. reflexivity. Qed.

(** A heading followed by U+00A0, and a bullet on a line that starts after
    U+2028 and is indented with U+3000. *)
Example cleanBotText_unicode_markdown :
  cleanBotText ("#" ++ String (ascii_of_nat 194) (String (ascii_of_nat 160) "Doshas")
                ++ String (ascii_of_nat 226)
                     (String (ascii_of_nat 128) (String (ascii_of_nat 168)
                        (String (ascii_of_nat 227)
                           (String (ascii_of_nat 128) (String (ascii_of_nat 128)
                              "- vata"))))))
  = "Doshas" ++ String (ascii_of_nat 226)
                  (String (ascii_of_nat 128) (String (ascii_of_nat 168) "vata")).
Proof. reflexivity. Qed.

(** The cleaning of a short Markdown answer. *)
Example cleanBotText_markdown :
  cleanBotText ("## Title" ++ Str.nl ++ "- **bold** item" ++ Str.nl
                ++ "  * second" ++ Str.nl ++ "text # x")
  = "Title" ++ Str.nl ++ "bold item" ++ Str.nl ++ "second" ++ Str.nl ++ "text x".
Proof. reflexivity. Qed.

End PageFacts.

(** ** The chat page against the route handler *)

Module PageHandlerFacts.
Import Page.

Lemma history_entry_well_formed (msg : Message) :
  Words.null_first_part (history_entry msg) = false
  /\ Words.well_formed (history_entry msg)
     = negb (String.eqb (text msg) EmptyString)
  /\ Words.canonical (history_entry msg)
     = mkChat (JStr (match sender msg with bot => "model" | user => "user" end))
         [mkPart (JStr (text msg))].
Proof. destruct msg as [i [|] t tm rag cnt]; repeat split. Qed.

(** X16: the handler can always read the request the page builds: the
    body yields the typed question and the history; the normalizer throws
    nothing on that history and keeps, in order, the messages whose text is
    not empty, the sender "bot" becoming the role "model"; and the prompt
    of the rewrite call gets the texts of the user messages among them. *)
Theorem page_request_is_readable (typed : string) (msgs : list Message) :
  Handler.destructure (request_body typed msgs)
  = Ok (JStr typed, formattedHistory msgs)
  /\ Chat.formattedHistory (formattedHistory msgs)
     = Ok (List.map
             (fun msg =>
                mkChat (JStr (match sender msg with
                              | bot => "model"
                              | user => "user"
                              end))
                  [mkPart (JStr (text msg))])
             (List.filter (fun msg => negb (String.eqb (text msg) EmptyString))
                msgs))
  /\ Chat.userHistory
       (List.map
          (fun msg =>
             mkChat (JStr (match sender msg with
                           | bot => "model"
                           | user => "user"
                           end))
               [mkPart (JStr (text msg))])
          (List.filter (fun msg => negb (String.eqb (text msg) EmptyString))
             msgs))
     = Ok (List.map (fun msg => JStr (text msg))
             (List.filter
                (fun msg =>
                   (negb (String.eqb (text msg) EmptyString) &&
                    match sender msg with bot => false | user => true end)%bool)
                msgs)).
Proof.
  assert (Hf : Chat.formattedHistory (formattedHistory msgs)
     = Ok (List.map
             (fun msg =>
                mkChat (JStr (match sender msg with
                              | bot => "model"
                              | user => "user"
                              end))
                  [mkPart (JStr (text msg))])
             (List.filter (fun msg => negb (String.eqb (text msg) EmptyString))
                msgs))).
  { unfold formattedHistory.
    rewrite NormalizerFacts.formattedHistory_spec.
    - f_equal. induction msgs as [|msg msgs IH]; [reflexivity|].
      cbn [List.map List.filter].
      destruct (history_entry_well_formed msg) as (_ & -> & Hc).
      destruct (negb (String.eqb (text msg) EmptyString));
        cbn [List.map]; rewrite ?Hc, IH; reflexivity.
    - apply List.Forall_forall. intros x Hin.
      apply List.in_map_iff in Hin as (msg & <- & _).
      apply history_entry_well_formed. }
  split; [reflexivity|]. split; [exact Hf|].
  clear Hf. unfold Chat.userHistory.
  induction msgs as [|msg msgs IH]; [reflexivity|].
  cbn [List.filter].
  destruct (negb (String.eqb (text msg) EmptyString)); cbn [andb List.map List.filter];
    [|exact IH].
  destruct (sender msg).
  - exact IH.
  - change (Js.eq_str (role (mkChat (JStr "user") [mkPart (JStr (text msg))])) "user")
      with true.
    cbn [List.map Chat.mapM]. rewrite IH. reflexivity.
Qed.

Lemma uint_no_letters (d : Decimal.uint) :
  More.occurs "k" (NilEmpty.string_of_uint d) = false
  /\ More.occurs "q" (NilEmpty.string_of_uint d) = false.
Proof. induction d; cbn; tauto. Qed.

Lemma of_Z_no_letters (n : Z) :
  More.occurs "k" (Str.of_Z n) = false /\ More.occurs "q" (Str.of_Z n) = false.
Proof.
  unfold Str.of_Z, NilZero.string_of_int, NilZero.string_of_uint.
  destruct (Z.to_int n) as [d|d]; destruct d;
    try (split; reflexivity);
    cbn [More.occurs]; cbn [Ascii.eqb Bool.eqb orb];
    apply uint_no_letters.
Qed.

Lemma includes_occurs (s sub : string) (c : ascii) :
  Str.includes s sub = true -> More.occurs c sub = true ->
  More.occurs c s = true.
Proof.
  intros H Hc. apply TextFacts.includes_spec in H as (pre & post & ->).
  rewrite !PageFacts.occurs_append, Hc, orb_true_r. reflexivity.
Qed.

(** A response whose status is outside 200-299 makes the page throw "API
    error: <status>", in which neither "API key" nor "quota" occurs. *)
Lemma api_error_generic (now : Z) (res : FetchResponse) :
  res_ok res = false ->
  botMsg now (Ok res)
  = Throw (new_Error ("API error: " ++ Str.of_Z (res_status res)))
  /\ errorMessage (new_Error ("API error: " ++ Str.of_Z (res_status res)))
     = Ok trouble_connecting.
Proof.
  intros Hok. split.
  - unfold botMsg. cbn [obind]. rewrite Hok. reflexivity.
  - unfold errorMessage, new_Error, mkError. cbn [message].
    destruct (of_Z_no_letters (res_status res)) as [Hk Hq].
    destruct (Str.includes _ "API key") eqn:E1.
    { apply includes_occurs with (c := "k"%char) in E1; [|reflexivity].
      rewrite PageFacts.occurs_append, Hk in E1. discriminate. }
    destruct (Str.includes _ "quota") eqn:E2.
    { apply includes_occurs with (c := "q"%char) in E2; [|reflexivity].
      rewrite PageFacts.occurs_append, Hq in E2. discriminate. }
    reflexivity.
Qed.

(** X17: whatever the body of a response whose status is outside 200-299,
    the page never reads it: it shows "Sorry, I'm having trouble
    connecting ...", never the API-key or the quota text. *)
Theorem http_error_shown_as_generic (now : Z) (res : FetchResponse) :
  res_ok res = false ->
  botMsg now (Ok res)
  = Throw (new_Error ("API error: " ++ Str.of_Z (res_status res)))
  /\ errorMessage (new_Error ("API error: " ++ Str.of_Z (res_status res)))
     = Ok trouble_connecting.
Proof.
  intros Hok. destruct (api_error_generic now res Hok) as [Hthrown Hshown].
  split; [exact Hthrown | exact Hshown].
Qed.

Lemma http_error_shown_as_generic_witness :
  botMsg 20
    (Ok (mkFetchResponse 429
           (Ok (JObj [("error", JStr "quota exceeded: check your API key")]))))
  = Throw (new_Error "API error: 429")
  /\ errorMessage (new_Error "API error: 429") = Ok trouble_connecting.
Proof.
  apply (http_error_shown_as_generic 20
           (mkFetchResponse 429
              (Ok (JObj [("error", JStr "quota exceeded: check your API key")])))).
  reflexivity.
Defined.

(** X18: every answer of the handler's [catch] clause reaches the user as
    the same generic text: its status is 500 or 503, so the page throws
    "API error: <status>" and the [error] and [details] of the body are
    not shown. *)
Theorem handler_errors_shown_as_generic (now : Z) (e : JsError) :
  botMsg now (Ok (on_the_wire (Chat.classify e)))
  = Throw (new_Error
             ("API error: " ++ Str.of_Z (http_status (Chat.classify e))))
  /\ errorMessage
       (new_Error ("API error: " ++ Str.of_Z (http_status (Chat.classify e))))
     = Ok trouble_connecting.
Proof.
  apply (api_error_generic now (on_the_wire (Chat.classify e))).
  rewrite ChatFacts.classify_category. destruct (category e); reflexivity.
Qed.

(** X19: every 200 answer of the handler is shown as its cleaned text: the
    answer is a non-empty string, so the page's own fallback sentence is
    not used, and [usedRAG] and [sourcesCount], which the handler does not
    send, are [false] and 0. *)
Theorem handler_answer_shown_cleaned (now : Z) (r2 : GenResponse) :
  exists a : string,
    Chat.answer r2 = JStr a
    /\ botMsg now (Ok (on_the_wire (json_ok (AnswerBody (Chat.answer r2)))))
       = Ok (mkMessage (now + 1) bot (cleanBotText a) None
               (Some (JBool false)) (Some (JNum true "0"))).
Proof.
  destruct (HandlerFacts.answer_nonempty r2) as (a & Ea & Hne & _).
  exists a. split; [exact Ea|]. rewrite Ea.
  assert (Hor : Js.or (JStr a) (JStr not_sure) = JStr a).
  { unfold Js.or, Js.truthy.
    destruct (String.eqb_spec a EmptyString) as [->|_]; [contradiction|].
    reflexivity. }
  unfold botMsg, on_the_wire, json_ok. cbn. rewrite Hor. reflexivity.
Qed.



(** [handleSend] at four responses: an answer of the handler, an error
    answer of the handler, a failed [fetch], and a body whose [error] is an
    object that cannot be converted to a string. *)
Example handleSend_runs :
  handleSend
    (fun _ => Ok (on_the_wire (json_ok (AnswerBody (JStr "**Vata** moves.")))))
    10 20 "09:02" (mkPageState [More.greeting] "hi" false)
  = (mkPageState
       [More.greeting;
        mkMessage 10 user "hi" (Some "09:02") None None;
        mkMessage 21 bot "Vata moves." None
          (Some (JBool false)) (Some (JNum true "0"))]
       EmptyString false,
     Ok tt)
  /\ handleSend
       (fun _ => Ok (on_the_wire (Chat.classify Scenario.rate_limited)))
       10 20 "09:02" (mkPageState [More.greeting] "hi" false)
     = (mkPageState
          [More.greeting;
           mkMessage 10 user "hi" (Some "09:02") None None;
           mkMessage 22 bot trouble_connecting None None None]
          EmptyString false,
        Ok tt)
  /\ handleSend (fun _ => Throw (new_Error "Failed to fetch"))
       10 20 "09:02" (mkPageState [More.greeting] "hi" false)
     = (mkPageState
          [More.greeting;
           mkMessage 10 user "hi" (Some "09:02") None None;
           mkMessage 22 bot trouble_connecting None None None]
          EmptyString false,
        Ok tt)
  /\ handleSend
       (fun _ => Ok (mkFetchResponse 200
                       (Ok (JObj [("error", More.unprintable)]))))
       10 20 "09:02" (mkPageState [More.greeting] "hi" false)
     = (mkPageState
          [More.greeting;
           mkMessage 10 user "hi" (Some "09:02") None None;
           mkMessage 22 bot trouble_connecting None None None]
          EmptyString false,
        Ok tt).
Proof. repeat split. Qed.

End PageHandlerFacts.
